(** * droplet-sim: the physics-and-replay core of [script.js]

    A shallow embedding of the two classes of [script.js], [Droplet3D] and
    [SimulatorAdvanced], and the properties of the specification that
    concern them.

    Conventions of the embedding.

    - A JavaScript number that carries a physical quantity (a coordinate, a
      velocity, a time, a slider value) is a real number of [R]: arithmetic
      is exact, and neither rounding nor NaN nor the infinities exist.
      Decimal literals of the source are the same decimals here.  A division
      by zero is therefore outside the model ([1 / 0] is a real number
      here): the statements that divide by the mass assume it is not zero.
    - The values the sliders deliver are the exception: the listeners that
      store them do no arithmetic and are defined for every type of
      numbers, among them [jsnumber], which has NaN and the infinities.
    - An array index (the replay cursor) is an integer of [Z], or NaN.
    - Objects are records; a method is a function from the receiver (its
      first-or-last argument, named [this] or [d]) to the updated receiver.
    - Of three.js only what the code reads back is kept: [Vector3] with the
      operations used, and of a mesh its position and its [visible] flag.
      The scene graph, materials, the renderer and the DOM (button labels,
      text displays, the slider widget) are not modelled. *)

From Stdlib Require Import Reals Lra Lia List ZArith Bool.
Import ListNotations.

Open Scope R_scope.

(** ** THREE.Vector3 *)

Module Vector3.

Record t : Type := mk { x : R; y : R; z : R }.

Definition set_y (v : t) (y' : R) : t := mk (x v) y' (z v).

Definition add (a b : t) : t := mk (x a + x b) (y a + y b) (z a + z b).

Definition multiplyScalar (v : t) (s : R) : t := mk (x v * s) (y v * s) (z v * s).

(** three.js: [divideScalar(s)] is [multiplyScalar(1 / s)].  For [s = 0]
    JavaScript gives infinities and NaN, which the reals do not have: the
    model says nothing of that case. *)
Definition divideScalar (v : t) (s : R) : t := multiplyScalar v (1 / s).

Definition negate (v : t) : t := mk (- x v) (- y v) (- z v).

Definition lengthSq (v : t) : R := x v * x v + y v * y v + z v * z v.

Definition length (v : t) : R := sqrt (lengthSq v).

(** three.js: [normalize()] is [divideScalar(this.length() || 1)]; the
    [||] replaces a zero length by 1. *)
Definition normalize (v : t) : t :=
  divideScalar v (if Req_dec_T (length v) 0 then 1 else length v).

End Vector3.

(** ** Meshes: position and visibility only *)

Record Mesh : Type := mkMesh {
  mesh_position : Vector3.t;
  visible : bool
}.

Definition set_visible (b : bool) (m : Mesh) : Mesh := mkMesh (mesh_position m) b.

(** ** class Droplet3D *)

Module Droplet3D.

Record t : Type := mk {
  position : Vector3.t;
  velocity : Vector3.t;
  mass : R;
  radius : R;
  mesh : Mesh;
  isDead : bool;
  lastBounceTime : R
}.

(** [createMesh]: a sphere placed at the droplet's position; a new three.js
    object is visible. *)
Definition createMesh (pos : Vector3.t) : Mesh := mkMesh pos true.

(** [constructor(x, y, z, mass, size, scene)]. *)
Definition new (x y z mass size : R) : t :=
  let pos := Vector3.mk x y z in
  mk pos (Vector3.mk 0 0 0) mass (size * 0.1) (createMesh pos) false 0.

Definition set_position (d : t) (p : Vector3.t) : t :=
  mk p (velocity d) (mass d) (radius d) (mesh d) (isDead d) (lastBounceTime d).

Definition set_velocity (d : t) (v : Vector3.t) : t :=
  mk (position d) v (mass d) (radius d) (mesh d) (isDead d) (lastBounceTime d).

Definition set_mesh (d : t) (m : Mesh) : t :=
  mk (position d) (velocity d) (mass d) (radius d) m (isDead d) (lastBounceTime d).

Definition set_isDead (d : t) (b : bool) : t :=
  mk (position d) (velocity d) (mass d) (radius d) (mesh d) b (lastBounceTime d).

(** All of a droplet but the [visible] flag of its mesh: position,
    velocity, mass, radius, where its mesh is, alive flag, last bounce. *)
Definition physical (d : t) : Vector3.t * Vector3.t * R * R * Vector3.t * bool * R :=
  (position d, velocity d, mass d, radius d, mesh_position (mesh d), isDead d,
   lastBounceTime d).

Definition bounceThreshold : R := 25.0.

(** The test of the bounce branch, [impactSpeed < bounceThreshold &&
    surfaceVelY > -2], as a decision. *)
Definition bounces (impactSpeed surfaceVelY : R) : bool :=
  if Rlt_dec impactSpeed bounceThreshold
  then (if Rgt_dec surfaceVelY (-2) then true else false)
  else false.

(** The two constants computed at the head of [handleSurfaceCollision]. *)
Definition relativeVelY (d : t) (surfaceVelY : R) : R :=
  Vector3.y (velocity d) - surfaceVelY.

Definition impactSpeed (d : t) (surfaceVelY : R) : R :=
  Rabs (relativeVelY d surfaceVelY).

(** [handleSurfaceCollision(surfaceY, surfaceVelY, time)]. *)
Definition handleSurfaceCollision (surfaceY surfaceVelY time : R) (d : t) : t :=
  if Rlt_dec (relativeVelY d surfaceVelY) 0 then
    if bounces (impactSpeed d surfaceVelY) surfaceVelY then
      (* this.velocity.y = Math.abs(this.velocity.y) * 0.8 *)
      let d1 := set_velocity d
                  (Vector3.set_y (velocity d) (Rabs (Vector3.y (velocity d)) * 0.8)) in
      (* this.velocity.y += Math.max(0, surfaceVelY * 0.5) *)
      let d2 := set_velocity d1
                  (Vector3.set_y (velocity d1)
                     (Vector3.y (velocity d1) + Rmax 0 (surfaceVelY * 0.5))) in
      (* this.position.y = surfaceY + this.radius *)
      set_position d2 (Vector3.set_y (position d2) (surfaceY + radius d2))
    else
      set_isDead d true
  else d.

(** Lines 40-54 of [update]: gravity, quadratic drag, and the explicit
    Euler step with the position scaled by 10. *)
Definition integrate (deltaTime gravity airResistance : R) (d : t) : t :=
  let gravityForce := Vector3.mk 0 (- mass d * gravity) 0 in
  let speedSq := Vector3.lengthSq (velocity d) in
  let gravityForce :=
    if Rgt_dec speedSq 0.0001 then
      let dragMag := airResistance * speedSq in
      let dragDir := Vector3.negate (Vector3.normalize (velocity d)) in
      Vector3.add gravityForce (Vector3.multiplyScalar dragDir dragMag)
    else gravityForce in
  let acceleration := Vector3.divideScalar gravityForce (mass d) in
  let d1 := set_velocity d
              (Vector3.add (velocity d) (Vector3.multiplyScalar acceleration deltaTime)) in
  set_position d1
    (Vector3.add (position d1) (Vector3.multiplyScalar (velocity d1) (deltaTime * 10))).

(** Lines 56-61 of [update]: the collision test against the surface. *)
Definition collide (surfaceY surfaceVelY time : R) (d : t) : t :=
  if Rle_dec (Vector3.y (position d) - radius d) surfaceY
  then handleSurfaceCollision surfaceY surfaceVelY time d
  else d.

(** The path of [update] through the bounce branch: the surface is reached
    (line 58), the droplet moves down relative to it (line 76), and the test
    of line 88 holds. *)
Definition takes_bounce (surfaceY surfaceVelY : R) (d : t) : Prop :=
  Vector3.y (position d) - radius d <= surfaceY
  /\ relativeVelY d surfaceVelY < 0
  /\ impactSpeed d surfaceVelY < 25
  /\ surfaceVelY > -2.

(** The path of [update] through the splash branch: the surface is
    reached, the droplet moves down relative to it, and the test of line 88
    fails. *)
Definition takes_splash (surfaceY surfaceVelY : R) (d : t) : Prop :=
  Vector3.y (position d) - radius d <= surfaceY
  /\ relativeVelY d surfaceVelY < 0
  /\ (impactSpeed d surfaceVelY >= 25 \/ surfaceVelY <= -2).

(** Lines 63-66 of [update]: the mesh follows the droplet, then the floor
    check. *)
Definition finish (d : t) : t :=
  let d1 := set_mesh d (mkMesh (position d) (visible (mesh d))) in
  if Rlt_dec (Vector3.y (position d1)) (-50) then set_isDead d1 true else d1.

(** [update(deltaTime, gravity, airResistance, surfaceY, surfaceVelY, time)]. *)
Definition update (deltaTime gravity airResistance surfaceY surfaceVelY time : R)
  (d : t) : t :=
  finish (collide surfaceY surfaceVelY time (integrate deltaTime gravity airResistance d)).

End Droplet3D.

(** ** History frames *)

(** One entry of [frame.droplets]: [{pos, radius, dead}]; [pos] is a clone,
    so a frame shares nothing with the live droplet. *)
Module Snapshot.

Record t : Type := mk {
  pos : Vector3.t;
  radius : R;
  dead : bool
}.

Definition of_droplet (d : Droplet3D.t) : t :=
  mk (Droplet3D.position d) (Droplet3D.radius d) (Droplet3D.isDead d).

End Snapshot.

Module Frame.

Record t : Type := mk {
  droplets : list Snapshot.t;
  waterTime : R
}.

End Frame.

(** ** Array indices *)

(** The value of [replayFrame]: the result of [parseInt], or of
    [history.length - 1]. *)
Inductive jsint : Type :=
| JNaN
| JInt (i : Z).

(** [a[i]]: the element, or [undefined] when [i] is not an index of [a]. *)
Definition array_get {A : Type} (a : list A) (i : jsint) : option A :=
  match i with
  | JNaN => None
  | JInt z => if (z <? 0)%Z then None else nth_error a (Z.to_nat z)
  end.

(** [i] is an index of [a]: an integer of [[0, length - 1]]. *)
Definition in_bounds {A : Type} (a : list A) (i : jsint) : Prop :=
  match i with
  | JNaN => False
  | JInt z => (0 <= z < Z.of_nat (length a))%Z
  end.

(** ** Numbers as the sliders deliver them *)

(** What [parseFloat] can return: a finite number, NaN, or one of the two
    infinities. *)
Inductive jsnumber : Type :=
| Finite (r : R)
| NaN
| Infinity
| NegInfinity.

(** ** class SimulatorAdvanced *)

(** The sliders bound by [bindSlider]: the field each one writes. *)
Inductive SliderTarget : Type :=
| Tgravity
| Tmass
| TairResistance
| Tfreq
| Tamp.

Module SimulatorAdvanced.

(** The fields of a simulator.  [num] is the type of the numbers held by
    the five fields a slider writes.  The listeners, which only store, are
    defined for every [num]; the physics, which computes with these fields,
    is defined for [num := R], the simulators of type [t] below. *)
Record state (num : Type) : Type := mk {
  droplets : list Droplet3D.t;
  isRunning : bool;
  time : R;
  rainMode : bool;
  gravity : num;
  mass : num;
  airResistance : num;
  dropletSize : R;
  freq : num;
  amp : num;
  history : list Frame.t;
  isReplaying : bool;
  replayFrame : jsint;
  MAX_HISTORY : nat;
  (** [undefined] until [renderReplay] creates it *)
  replayPool : option (list Mesh);
  (** the vertices of [waterMesh.geometry.attributes.position] *)
  waterMesh : list Vector3.t
}.

Arguments mk {num}.
Arguments droplets {num}.
Arguments isRunning {num}.
Arguments time {num}.
Arguments rainMode {num}.
Arguments gravity {num}.
Arguments mass {num}.
Arguments airResistance {num}.
Arguments dropletSize {num}.
Arguments freq {num}.
Arguments amp {num}.
Arguments history {num}.
Arguments isReplaying {num}.
Arguments replayFrame {num}.
Arguments MAX_HISTORY {num}.
Arguments replayPool {num}.
Arguments waterMesh {num}.

(** A simulator whose configuration holds finite numbers. *)
Definition t : Type := state R.

(** The state the constructor leaves, before the first animation frame;
    [vertices] are those of the plane geometry. *)
Definition new (vertices : list Vector3.t) : t :=
  mk [] false 0 false 9.8 5 0.02 8 30 0.5 [] false (JInt 0) (60 * 20) None vertices.

Definition set_droplets {num : Type} (v : list Droplet3D.t) (s : state num) : state num :=
  mk v (isRunning s) (time s) (rainMode s) (gravity s) (mass s) (airResistance s)
     (dropletSize s) (freq s) (amp s) (history s) (isReplaying s) (replayFrame s)
     (MAX_HISTORY s) (replayPool s) (waterMesh s).

Definition set_isRunning {num : Type} (v : bool) (s : state num) : state num :=
  mk (droplets s) v (time s) (rainMode s) (gravity s) (mass s) (airResistance s)
     (dropletSize s) (freq s) (amp s) (history s) (isReplaying s) (replayFrame s)
     (MAX_HISTORY s) (replayPool s) (waterMesh s).

Definition set_time {num : Type} (v : R) (s : state num) : state num :=
  mk (droplets s) (isRunning s) v (rainMode s) (gravity s) (mass s) (airResistance s)
     (dropletSize s) (freq s) (amp s) (history s) (isReplaying s) (replayFrame s)
     (MAX_HISTORY s) (replayPool s) (waterMesh s).

Definition set_rainMode {num : Type} (v : bool) (s : state num) : state num :=
  mk (droplets s) (isRunning s) (time s) v (gravity s) (mass s) (airResistance s)
     (dropletSize s) (freq s) (amp s) (history s) (isReplaying s) (replayFrame s)
     (MAX_HISTORY s) (replayPool s) (waterMesh s).

Definition set_gravity {num : Type} (v : num) (s : state num) : state num :=
  mk (droplets s) (isRunning s) (time s) (rainMode s) v (mass s) (airResistance s)
     (dropletSize s) (freq s) (amp s) (history s) (isReplaying s) (replayFrame s)
     (MAX_HISTORY s) (replayPool s) (waterMesh s).

Definition set_mass {num : Type} (v : num) (s : state num) : state num :=
  mk (droplets s) (isRunning s) (time s) (rainMode s) (gravity s) v (airResistance s)
     (dropletSize s) (freq s) (amp s) (history s) (isReplaying s) (replayFrame s)
     (MAX_HISTORY s) (replayPool s) (waterMesh s).

Definition set_airResistance {num : Type} (v : num) (s : state num) : state num :=
  mk (droplets s) (isRunning s) (time s) (rainMode s) (gravity s) (mass s) v
     (dropletSize s) (freq s) (amp s) (history s) (isReplaying s) (replayFrame s)
     (MAX_HISTORY s) (replayPool s) (waterMesh s).

Definition set_freq {num : Type} (v : num) (s : state num) : state num :=
  mk (droplets s) (isRunning s) (time s) (rainMode s) (gravity s) (mass s) (airResistance s)
     (dropletSize s) v (amp s) (history s) (isReplaying s) (replayFrame s)
     (MAX_HISTORY s) (replayPool s) (waterMesh s).

Definition set_amp {num : Type} (v : num) (s : state num) : state num :=
  mk (droplets s) (isRunning s) (time s) (rainMode s) (gravity s) (mass s) (airResistance s)
     (dropletSize s) (freq s) v (history s) (isReplaying s) (replayFrame s)
     (MAX_HISTORY s) (replayPool s) (waterMesh s).

Definition set_history {num : Type} (v : list Frame.t) (s : state num) : state num :=
  mk (droplets s) (isRunning s) (time s) (rainMode s) (gravity s) (mass s) (airResistance s)
     (dropletSize s) (freq s) (amp s) v (isReplaying s) (replayFrame s)
     (MAX_HISTORY s) (replayPool s) (waterMesh s).

Definition set_isReplaying {num : Type} (v : bool) (s : state num) : state num :=
  mk (droplets s) (isRunning s) (time s) (rainMode s) (gravity s) (mass s) (airResistance s)
     (dropletSize s) (freq s) (amp s) (history s) v (replayFrame s)
     (MAX_HISTORY s) (replayPool s) (waterMesh s).

Definition set_replayFrame {num : Type} (v : jsint) (s : state num) : state num :=
  mk (droplets s) (isRunning s) (time s) (rainMode s) (gravity s) (mass s) (airResistance s)
     (dropletSize s) (freq s) (amp s) (history s) (isReplaying s) v
     (MAX_HISTORY s) (replayPool s) (waterMesh s).

Definition set_replayPool {num : Type} (v : option (list Mesh)) (s : state num) : state num :=
  mk (droplets s) (isRunning s) (time s) (rainMode s) (gravity s) (mass s) (airResistance s)
     (dropletSize s) (freq s) (amp s) (history s) (isReplaying s) (replayFrame s)
     (MAX_HISTORY s) v (waterMesh s).

Definition set_waterMesh {num : Type} (v : list Vector3.t) (s : state num) : state num :=
  mk (droplets s) (isRunning s) (time s) (rainMode s) (gravity s) (mass s) (airResistance s)
     (dropletSize s) (freq s) (amp s) (history s) (isReplaying s) (replayFrame s)
     (MAX_HISTORY s) (replayPool s) v.

(** *** Listeners of [initListeners] *)

(** [startBtn.onclick]. *)
Definition startBtn {num : Type} (this : state num) : state num :=
  set_isReplaying false (set_isRunning true this).

(** [pauseBtn.onclick]. *)
Definition pauseBtn {num : Type} (this : state num) : state num :=
  set_isRunning false this.

(** The field a slider reads and writes. *)
Definition get_target {num : Type} (target : SliderTarget) (this : state num) : num :=
  match target with
  | Tgravity => gravity this
  | Tmass => mass this
  | TairResistance => airResistance this
  | Tfreq => freq this
  | Tamp => amp this
  end.

(** The listener installed by [bindSlider(id, target, displayId)]:
    [this[target] = parseFloat(e.target.value)]; [value] is what
    [parseFloat] returned.  The listener stores and does nothing else, so it
    is the same function for every type of numbers: for [num := R] it is the
    listener on a simulator of type [t], for [num := jsnumber] the value may
    be NaN or an infinity as well. *)
Definition bindSlider {num : Type} (target : SliderTarget) (value : num)
  (this : state num) : state num :=
  match target with
  | Tgravity => set_gravity value this
  | Tmass => set_mass value this
  | TairResistance => set_airResistance value this
  | Tfreq => set_freq value this
  | Tamp => set_amp value this
  end.

(** The same simulator with the numbers of its five slider fields read
    through [f]; with [f := Finite], a simulator of type [t] seen as one whose
    sliders deliver JavaScript numbers. *)
Definition with_config {num num' : Type} (f : num -> num') (s : state num)
  : state num' :=
  mk (droplets s) (isRunning s) (time s) (rainMode s) (f (gravity s)) (f (mass s))
     (f (airResistance s)) (dropletSize s) (f (freq s)) (f (amp s)) (history s)
     (isReplaying s) (replayFrame s) (MAX_HISTORY s) (replayPool s) (waterMesh s).

(** The [input] listener of [replaySlider]; [value] is what [parseInt]
    returned. *)
Definition replaySlider (value : jsint) (this : t) : t :=
  if isReplaying this then set_replayFrame value this else this.

(** [spawnDroplet()]; [r1] and [r2] are the two draws of [Math.random()]. *)
Definition spawnDroplet (r1 r2 : R) (this : t) : t :=
  let x := (r1 - 0.5) * 40 in
  let z := (r2 - 0.5) * 40 in
  set_droplets (droplets this ++ [Droplet3D.new x 40 z (mass this) (dropletSize this)]) this.

(** [toggleRain()]; the interval timer itself is the environment's: it
    calls [spawnDroplet] while rain mode is on. *)
Definition toggleRain (this : t) : t :=
  let this := set_rainMode (negb (rainMode this)) this in
  if rainMode this then set_isRunning true this else this.

(** [reset()]. *)
Definition reset (this : t) : t :=
  let this := set_droplets [] this in
  let this := set_history [] this in
  let this := set_time 0 this in
  let this := set_isRunning false this in
  let this := set_isReplaying false this in
  if rainMode this then toggleRain this else this.

(** *** Physics *)

(** [getWaveHeight(x, z, t)]. *)
Definition getWaveHeight (this : t) (x z t : R) : R :=
  let k := 0.2 in
  let omega := freq this * 0.1 in
  amp this * cos (k * x) * cos (k * z) * cos (omega * t).

(** [getSurfaceVelY(x, z, t)]. *)
Definition getSurfaceVelY (this : t) (x z t : R) : R :=
  let k := 0.2 in
  let omega := freq this * 0.1 in
  - amp this * omega * cos (k * x) * cos (k * z) * sin (omega * t).

(** [updateWaterSurface(time)]: every vertex takes the wave height at its
    own (x, z). *)
Definition updateWaterSurface (time : R) (this : t) : t :=
  set_waterMesh
    (map (fun p => Vector3.set_y p (getWaveHeight this (Vector3.x p) (Vector3.z p) time))
         (waterMesh this))
    this.

(** *** Replay system *)

(** [history.shift()]. *)
Definition shift {A : Type} (a : list A) : list A := tl a.

(** [recordFrame()]. *)
Definition recordFrame (this : t) : t :=
  let this :=
    if (MAX_HISTORY this <? length (history this))%nat
    then set_history (shift (history this)) this
    else this in
  let frame := Frame.mk (map Snapshot.of_droplet (droplets this)) (time this) in
  set_history (history this ++ [frame]) this.

(** [startReplay()]. *)
Definition startReplay (this : t) : t :=
  let this := set_isReplaying (negb (isReplaying this)) this in
  let this := set_isRunning (negb (isReplaying this)) this in
  if isReplaying this
  then set_replayFrame (JInt (Z.of_nat (length (history this)) - 1)) this
  else this.

(** The mesh [renderReplay] takes from a throw-away
    [new Droplet3D(0, 0, 0, 1, 1, this.scene)]. *)
Definition poolMesh : Mesh := Droplet3D.mesh (Droplet3D.new 0 0 0 1 1).

(** The [while] loop of [renderReplay]: the pool grows to [n] meshes. *)
Definition ensurePool (n : nat) (pool : list Mesh) : list Mesh :=
  pool ++ repeat poolMesh (n - length pool).

(** The last [forEach] of [renderReplay]: mesh [i] of the pool shows
    droplet [i] of the frame.  The pool is at least as long as the frame
    when this runs. *)
Fixpoint showFrame (ds : list Snapshot.t) (pool : list Mesh) : list Mesh :=
  match ds, pool with
  | dData :: ds', _ :: pool' => mkMesh (Snapshot.pos dData) true :: showFrame ds' pool'
  | _, _ => pool
  end.

(** [renderReplay()]. *)
Definition renderReplay (this : t) : t :=
  match array_get (history this) (replayFrame this) with
  | None => this
  | Some frame =>
      let this := updateWaterSurface (Frame.waterTime frame) this in
      let this :=
        set_droplets
          (map (fun d => Droplet3D.set_mesh d (set_visible false (Droplet3D.mesh d)))
               (droplets this))
          this in
      let pool := match replayPool this with Some p => p | None => [] end in
      let pool := ensurePool (length (Frame.droplets frame)) pool in
      let pool := map (set_visible false) pool in
      set_replayPool (Some (showFrame (Frame.droplets frame) pool)) this
  end.

(** *** The animation frame *)

(** The fixed step of [animate]. *)
Definition dt : R := 0.016.

(** The body of the droplet loop of [animate] for one droplet: the updated
    droplet, which the loop then removes when it is dead. *)
Definition stepDroplet (this : t) (d : Droplet3D.t) : Droplet3D.t :=
  let d := Droplet3D.set_mesh d (set_visible true (Droplet3D.mesh d)) in
  let sY := getWaveHeight this (Vector3.x (Droplet3D.position d))
                          (Vector3.z (Droplet3D.position d)) (time this) in
  let sVy := getSurfaceVelY this (Vector3.x (Droplet3D.position d))
                            (Vector3.z (Droplet3D.position d)) (time this) in
  Droplet3D.update dt (gravity this) (airResistance this) sY sVy (time this) d.

(** The droplet loop of [animate].  The loop runs from the last index to
    the first and splices a dead droplet out at once; no droplet's update
    reads another droplet, so the survivors are the updated droplets that
    are not dead, in their order. *)
Definition stepDroplets (this : t) : t :=
  set_droplets
    (filter (fun d => negb (Droplet3D.isDead d)) (map (stepDroplet this) (droplets this)))
    this.

(** [animate(now)], without the request of the next frame and the call of
    the renderer. *)
Definition animate (this : t) : t :=
  let this :=
    if isReplaying this then renderReplay this
    else if isRunning this then
      let this := set_time (time this + dt * (freq this / 30)) this in
      let this := updateWaterSurface (time this) this in
      let this := stepDroplets this in
      recordFrame this
    else this in
  if negb (isReplaying this) then
    match replayPool this with
    | Some pool => set_replayPool (Some (map (set_visible false) pool)) this
    | None => this
    end
  else this.

(** *** A stay in Replay *)

(** What happens between entering and leaving Replay: the user moves the
    replay slider, the browser runs animation frames, and the interval timer
    that [toggleRain] started (line 251) fires.  Nothing stops that timer
    when Replay is entered: it runs for as long as rain mode is on, and each
    time calls [spawnDroplet], with its two random draws. *)
Inductive ReplayAction : Type :=
| Scrub (value : jsint)
| AnimationFrame
| RainTimer (r1 r2 : R).

Definition replayStep (this : t) (a : ReplayAction) : t :=
  match a with
  | Scrub value => replaySlider value this
  | AnimationFrame => animate this
  | RainTimer r1 r2 => if rainMode this then spawnDroplet r1 r2 this else this
  end.

(** The state while in Replay, after [actions]: [replayBtn] was clicked in
    Live mode, then the actions took place in order. *)
Definition duringReplay (actions : list ReplayAction) (this : t) : t :=
  fold_left replayStep actions (startReplay this).

(** [replayBtn] is clicked again: back to Live. *)
Definition replaySession (actions : list ReplayAction) (this : t) : t :=
  startReplay (duringReplay actions this).

(** How many times the rain timer fires among [actions]. *)
Definition timer_firings (actions : list ReplayAction) : nat :=
  length (filter (fun a => match a with RainTimer _ _ => true | _ => false end)
                 actions).

(** What holds of the state all along a stay in Replay that began in
    [this0], once the rain timer has added [n] droplets: the history and the
    time are those of [this0], and the droplets are those of [this0], up to
    the visibility of their meshes, followed by [n] new ones. *)
Definition replay_invariant (this0 : t) (n : nat) (this : t) : Prop :=
  isReplaying this = true
  /\ rainMode this = rainMode this0
  /\ history this = history this0
  /\ time this = time this0
  /\ exists spawned : list Droplet3D.t,
       length spawned = n
       /\ map Droplet3D.physical (droplets this)
          = map Droplet3D.physical (droplets this0) ++ map Droplet3D.physical spawned.

(** *** Everything the page can do to a simulator *)

(** The events of the page that reach the simulator: the buttons, the
    sliders, and the animation frame.  [Spawn] is [spawnDroplet] called by
    the add button or by the rain timer, with its two random draws. *)
Inductive Event : Type :=
| Start
| Pause
| ResetAll
| Spawn (r1 r2 : R)
| RainMode
| Slider (target : SliderTarget) (value : R)
| ReplayToggle
| ReplayScrub (value : jsint)
| Tick.

Definition handle (this : t) (e : Event) : t :=
  match e with
  | Start => startBtn this
  | Pause => pauseBtn this
  | ResetAll => reset this
  | Spawn r1 r2 => spawnDroplet r1 r2 this
  | RainMode => toggleRain this
  | Slider target value => bindSlider target value this
  | ReplayToggle => startReplay this
  | ReplayScrub value => replaySlider value this
  | Tick => animate this
  end.

Definition run (events : list Event) (this : t) : t := fold_left handle events this.

(** What every state the page can reach satisfies. *)
Definition well_formed (this : t) : Prop :=
  MAX_HISTORY this = 1200%nat
  /\ (length (history this) <= 1201)%nat
  /\ dropletSize this = 8
  /\ Forall (fun d => Droplet3D.isDead d = false /\ Droplet3D.radius d = 0.8)
            (droplets this)
  /\ Forall (fun frame =>
               Forall (fun sn => Snapshot.dead sn = false /\ Snapshot.radius sn = 0.8)
                      (Frame.droplets frame))
            (history this).

End SimulatorAdvanced.

(** * Sample inputs *)

(** A droplet as [spawnDroplet] makes them under the initial configuration
    (mass 5, size 8, so radius 0.8), at height [y] on the vertical axis, with
    vertical velocity [vy]. *)
Definition droplet_at (y vy : R) : Droplet3D.t :=
  Droplet3D.mk (Vector3.mk 0 y 0) (Vector3.mk 0 vy 0) 5 0.8
               (mkMesh (Vector3.mk 0 y 0) true) false 0.

(** The simulator as its constructor leaves it; the water plane has no
    vertex here, the surface mesh plays no part in what follows. *)
Definition sim0 : SimulatorAdvanced.t := SimulatorAdvanced.new [].

(** The new simulator, its configuration as the sliders deliver it. *)
Definition sim0_js : SimulatorAdvanced.state jsnumber :=
  SimulatorAdvanced.with_config Finite sim0.

(** A running simulator with one droplet and two recorded frames. *)
Definition sim2 : SimulatorAdvanced.t :=
  SimulatorAdvanced.recordFrame
    (SimulatorAdvanced.recordFrame
       (SimulatorAdvanced.spawnDroplet 0.5 0.5 (SimulatorAdvanced.startBtn sim0))).

(** The same, with rain mode on. *)
Definition sim2_rain : SimulatorAdvanced.t := SimulatorAdvanced.toggleRain sim2.

(** * Properties *)

(** Closes a goal of real arithmetic about the relative velocity or the
    impact speed of a droplet that moves down onto the surface. *)
Ltac collision_arith :=
  unfold Droplet3D.impactSpeed, Droplet3D.relativeVelY; cbn;
  try rewrite Rabs_left by lra; lra.

(** ** Surface collision *)

Section Collision.

Import Droplet3D.

Variables surfaceY surfaceVelY time : R.
Variable d : Droplet3D.t.

Lemma bounces_true :
  impactSpeed d surfaceVelY < 25 -> surfaceVelY > -2 ->
  bounces (impactSpeed d surfaceVelY) surfaceVelY = true.
Proof.
  intros Hi Hs. unfold bounces, bounceThreshold.
  destruct (Rlt_dec _ 25.0) as [_ | n]; [| exfalso; apply n; lra].
  destruct (Rgt_dec surfaceVelY (-2)) as [_ | n]; [reflexivity | contradiction].
Qed.

Lemma bounces_false :
  impactSpeed d surfaceVelY >= 25 \/ surfaceVelY <= -2 ->
  bounces (impactSpeed d surfaceVelY) surfaceVelY = false.
Proof.
  intros H. unfold bounces, bounceThreshold.
  destruct (Rlt_dec _ 25.0) as [l | _]; [| reflexivity].
  destruct (Rgt_dec surfaceVelY (-2)) as [g | _]; [| reflexivity].
  exfalso. destruct H; lra.
Qed.

(** The bounce branch, as one equation. *)
Lemma handleSurfaceCollision_bounce :
  relativeVelY d surfaceVelY < 0 ->
  impactSpeed d surfaceVelY < 25 -> surfaceVelY > -2 ->
  handleSurfaceCollision surfaceY surfaceVelY time d =
  mk (Vector3.set_y (position d) (surfaceY + radius d))
     (Vector3.set_y (velocity d)
        (Rabs (Vector3.y (velocity d)) * 0.8 + Rmax 0 (surfaceVelY * 0.5)))
     (mass d) (radius d) (mesh d) (isDead d) (lastBounceTime d).
Proof.
  intros Hr Hi Hs. unfold handleSurfaceCollision.
  destruct (Rlt_dec (relativeVelY d surfaceVelY) 0) as [_ | n]; [| contradiction].
  rewrite (bounces_true Hi Hs). reflexivity.
Qed.

(** The splash branch, as one equation. *)
Lemma handleSurfaceCollision_splash :
  relativeVelY d surfaceVelY < 0 ->
  impactSpeed d surfaceVelY >= 25 \/ surfaceVelY <= -2 ->
  handleSurfaceCollision surfaceY surfaceVelY time d = set_isDead d true.
Proof.
  intros Hr H. unfold handleSurfaceCollision.
  destruct (Rlt_dec (relativeVelY d surfaceVelY) 0) as [_ | n]; [| contradiction].
  rewrite (bounces_false H). reflexivity.
Qed.

(** No impact: the droplet moves with the surface or away from it. *)
Lemma handleSurfaceCollision_no_impact :
  relativeVelY d surfaceVelY >= 0 ->
  handleSurfaceCollision surfaceY surfaceVelY time d = d.
Proof.
  intros Hr. unfold handleSurfaceCollision.
  destruct (Rlt_dec (relativeVelY d surfaceVelY) 0) as [l | _];
    [exfalso; lra | reflexivity].
Qed.

End Collision.

(** ** The per-tick update *)

Section Update.

Import Droplet3D.

Variables deltaTime gravity airResistance surfaceY surfaceVelY time : R.
Variable d : Droplet3D.t.

Lemma collide_bounce :
  takes_bounce surfaceY surfaceVelY d ->
  collide surfaceY surfaceVelY time d =
  mk (Vector3.set_y (position d) (surfaceY + radius d))
     (Vector3.set_y (velocity d)
        (Rabs (Vector3.y (velocity d)) * 0.8 + Rmax 0 (surfaceVelY * 0.5)))
     (mass d) (radius d) (mesh d) (isDead d) (lastBounceTime d).
Proof.
  intros (Hy & Hr & Hi & Hs). unfold collide.
  destruct (Rle_dec _ surfaceY) as [_ | n]; [| contradiction].
  apply handleSurfaceCollision_bounce; assumption.
Qed.

Lemma collide_position_no_bounce :
  ~ takes_bounce surfaceY surfaceVelY d ->
  position (collide surfaceY surfaceVelY time d) = position d.
Proof.
  intros Hn. unfold collide.
  destruct (Rle_dec _ surfaceY) as [Hy | _]; [| reflexivity].
  unfold handleSurfaceCollision.
  destruct (Rlt_dec (relativeVelY d surfaceVelY) 0) as [Hr | _]; [| reflexivity].
  unfold bounces, bounceThreshold.
  destruct (Rlt_dec _ 25.0) as [Hi | _]; [| reflexivity].
  destruct (Rgt_dec surfaceVelY (-2)) as [Hs | _]; [| reflexivity].
  exfalso. apply Hn. repeat split; try assumption. lra.
Qed.

Lemma finish_position : position (finish d) = position d.
Proof.
  unfold finish. cbn. destruct (Rlt_dec _ (-50)); reflexivity.
Qed.

Lemma finish_isDead_below :
  Vector3.y (position d) < -50 -> isDead (finish d) = true.
Proof.
  intros H. unfold finish. cbn.
  destruct (Rlt_dec _ (-50)) as [_ | n]; [reflexivity | contradiction].
Qed.

Lemma finish_isDead_above :
  ~ Vector3.y (position d) < -50 -> isDead (finish d) = isDead d.
Proof.
  intros H. unfold finish. cbn.
  destruct (Rlt_dec _ (-50)) as [l | _]; [contradiction | reflexivity].
Qed.

(** The integration step of a droplet too slow for drag to apply. *)
Lemma integrate_no_drag :
  ~ Vector3.lengthSq (velocity d) > 0.0001 ->
  integrate deltaTime gravity airResistance d =
  let acceleration := Vector3.divideScalar (Vector3.mk 0 (- mass d * gravity) 0) (mass d) in
  let v := Vector3.add (velocity d) (Vector3.multiplyScalar acceleration deltaTime) in
  mk (Vector3.add (position d) (Vector3.multiplyScalar v (deltaTime * 10)))
     v (mass d) (radius d) (mesh d) (isDead d) (lastBounceTime d).
Proof.
  intros H. unfold integrate.
  destruct (Rgt_dec _ 0.0001) as [g | _]; [contradiction | reflexivity].
Qed.

End Update.

(** C4.  A collision with [rel = velocity.y - sVy < 0], [impactSpeed = |rel| < 25]
    and [sVy > -2] bounces: the new vertical velocity is
    [|old velocity.y| * 0.8 + max(0, sVy * 0.5)] and [position.y] becomes
    [sY + radius]; with incoming [velocity.y = -10] and [sVy = 3] the new
    [velocity.y] is 9.5. *)
Theorem bounce_velocity_and_position :
  forall (sY sVy time : R) (d : Droplet3D.t),
    Droplet3D.relativeVelY d sVy < 0 ->
    Droplet3D.impactSpeed d sVy < 25 ->
    sVy > -2 ->
    let d' := Droplet3D.handleSurfaceCollision sY sVy time d in
    Vector3.y (Droplet3D.velocity d') =
      Rabs (Vector3.y (Droplet3D.velocity d)) * 0.8 + Rmax 0 (sVy * 0.5)
    /\ Vector3.y (Droplet3D.position d') = sY + Droplet3D.radius d
    /\ (Vector3.y (Droplet3D.velocity d) = -10 -> sVy = 3 ->
        Vector3.y (Droplet3D.velocity d') = 9.5).
Proof.
  intros sY sVy time d Hr Hi Hs d'. subst d'.
  rewrite (handleSurfaceCollision_bounce sY sVy time d Hr Hi Hs). cbn.
  repeat split. intros Hv H3. rewrite Hv, H3.
  rewrite Rabs_left by lra. rewrite Rmax_right by lra. lra.
Qed.

Lemma bounce_velocity_and_position_witness :
  let d' := Droplet3D.handleSurfaceCollision 0.5 3 0 (droplet_at 1 (-10)) in
  Vector3.y (Droplet3D.velocity d') = 9.5
  /\ Vector3.y (Droplet3D.position d') = 0.5 + 0.8.
Proof.
  assert (Hr : Droplet3D.relativeVelY (droplet_at 1 (-10)) 3 < 0)
    by collision_arith.
  assert (Hi : Droplet3D.impactSpeed (droplet_at 1 (-10)) 3 < 25)
    by collision_arith.
  assert (Hs : 3 > -2) by lra.
  destruct (bounce_velocity_and_position 0.5 3 0 (droplet_at 1 (-10)) Hr Hi Hs)
    as (_ & Hp & Hv).
  split; [apply Hv; reflexivity | exact Hp].
Defined.

(** C5.  A collision with [rel = velocity.y - sVy < 0] and
    [impactSpeed = |rel| >= 25] or [sVy <= -2] marks the droplet dead and
    leaves its velocity (and its position) as they were; [impactSpeed = 30]
    does so whatever [sVy] is. *)
Theorem splash_marks_dead :
  forall (sY sVy time : R) (d : Droplet3D.t),
    Droplet3D.relativeVelY d sVy < 0 ->
    let d' := Droplet3D.handleSurfaceCollision sY sVy time d in
    (Droplet3D.impactSpeed d sVy >= 25 \/ sVy <= -2 ->
       Droplet3D.isDead d' = true
       /\ Droplet3D.velocity d' = Droplet3D.velocity d
       /\ Droplet3D.position d' = Droplet3D.position d)
    /\ (Droplet3D.impactSpeed d sVy = 30 ->
        Droplet3D.isDead d' = true
        /\ Droplet3D.velocity d' = Droplet3D.velocity d).
Proof.
  intros sY sVy time d Hr d'. subst d'. split.
  - intros H. rewrite (handleSurfaceCollision_splash sY sVy time d Hr H).
    cbn. repeat split.
  - intros H30.
    assert (H : Droplet3D.impactSpeed d sVy >= 25 \/ sVy <= -2) by (left; lra).
    rewrite (handleSurfaceCollision_splash sY sVy time d Hr H). cbn. split; reflexivity.
Qed.

Lemma splash_marks_dead_witness :
  Droplet3D.isDead (Droplet3D.handleSurfaceCollision 0.5 5 0 (droplet_at 1 (-25))) = true
  /\ Droplet3D.isDead (Droplet3D.handleSurfaceCollision 0.5 (-5) 0 (droplet_at 1 (-35))) = true
  /\ Droplet3D.isDead (Droplet3D.handleSurfaceCollision 0.5 (-3) 0 (droplet_at 1 (-4))) = true.
Proof.
  assert (H1 : Droplet3D.relativeVelY (droplet_at 1 (-25)) 5 < 0)
    by collision_arith.
  assert (H2 : Droplet3D.relativeVelY (droplet_at 1 (-35)) (-5) < 0)
    by collision_arith.
  assert (H3 : Droplet3D.relativeVelY (droplet_at 1 (-4)) (-3) < 0)
    by collision_arith.
  repeat split.
  - apply (proj2 (splash_marks_dead 0.5 5 0 (droplet_at 1 (-25)) H1)).
    collision_arith.
  - apply (proj2 (splash_marks_dead 0.5 (-5) 0 (droplet_at 1 (-35)) H2)).
    collision_arith.
  - apply (proj1 (splash_marks_dead 0.5 (-3) 0 (droplet_at 1 (-4)) H3)).
    right; lra.
Defined.

(** C9.  After a bounce the vertical velocity is not negative, and the
    droplet sits on the surface: [position.y - radius = surfaceY]. *)
Theorem bounce_leaves_upward_on_surface :
  forall (sY sVy time : R) (d : Droplet3D.t),
    Droplet3D.relativeVelY d sVy < 0 ->
    Droplet3D.impactSpeed d sVy < 25 ->
    sVy > -2 ->
    let d' := Droplet3D.handleSurfaceCollision sY sVy time d in
    0 <= Rabs (Vector3.y (Droplet3D.velocity d)) * 0.8
    /\ 0 <= Rmax 0 (sVy * 0.5)
    /\ 0 <= Vector3.y (Droplet3D.velocity d')
    /\ Vector3.y (Droplet3D.position d') - Droplet3D.radius d' = sY.
Proof.
  intros sY sVy time d Hr Hi Hs d'. subst d'.
  rewrite (handleSurfaceCollision_bounce sY sVy time d Hr Hi Hs). cbn.
  pose proof (Rabs_pos (Vector3.y (Droplet3D.velocity d))) as Ha.
  pose proof (Rmax_l 0 (sVy * 0.5)) as Hm.
  repeat split; try lra.
Qed.

Lemma bounce_leaves_upward_on_surface_witness :
  let d' := Droplet3D.handleSurfaceCollision 0.5 (-1) 0 (droplet_at 1 (-10)) in
  0 <= Vector3.y (Droplet3D.velocity d')
  /\ Vector3.y (Droplet3D.position d') - Droplet3D.radius d' = 0.5.
Proof.
  assert (Hr : Droplet3D.relativeVelY (droplet_at 1 (-10)) (-1) < 0)
    by collision_arith.
  assert (Hi : Droplet3D.impactSpeed (droplet_at 1 (-10)) (-1) < 25)
    by collision_arith.
  assert (Hs : -1 > -2) by lra.
  destruct (bounce_leaves_upward_on_surface 0.5 (-1) 0 (droplet_at 1 (-10)) Hr Hi Hs)
    as (_ & _ & Hv & Hp).
  split; assumption.
Defined.

(** C8, as stated, fails: a droplet at rest placed at [y = -60], below the
    floor, over a flat still surface ([sY = 0], [sVy = 0]) is carried back
    to the surface by the bounce of that same update and is still alive
    after it. *)
Lemma floor_kill_counterexample :
  Vector3.y (Droplet3D.position (droplet_at (-60) 0)) < -50
  /\ Droplet3D.isDead (Droplet3D.update 0.016 9.8 0.02 0 0 0 (droplet_at (-60) 0)) = false
  /\ Vector3.y (Droplet3D.position
                  (Droplet3D.update 0.016 9.8 0.02 0 0 0 (droplet_at (-60) 0))) = 0.8.
Proof.
  split; [cbn; lra |].
  unfold Droplet3D.update.
  rewrite integrate_no_drag
    by (unfold Vector3.lengthSq; cbn; lra).
  cbn.
  rewrite collide_bounce.
  2:{ unfold Droplet3D.takes_bounce, Droplet3D.impactSpeed, Droplet3D.relativeVelY. cbn.
      repeat split; try lra. rewrite Rabs_left; lra. }
  cbn.
  rewrite finish_isDead_above by (cbn; lra).
  rewrite finish_position. cbn. split; [reflexivity | lra].
Qed.

(** C8, amended.  A droplet whose [position.y] is below -50 once the
    integration step and the collision handling of an update have run is
    marked dead by that update, whatever the collision handling decided; in
    particular a droplet that the integration step leaves below -50 and that
    does not bounce in this update is marked dead.  A droplet that bounces
    in the update is moved to [sY + radius] before the floor check, which
    then marks it dead exactly when [sY + radius < -50]. *)
Theorem floor_kill_after_collision :
  forall (deltaTime gravity airResistance sY sVy time : R) (d : Droplet3D.t),
    let d1 := Droplet3D.integrate deltaTime gravity airResistance d in
    let d2 := Droplet3D.collide sY sVy time d1 in
    let d' := Droplet3D.update deltaTime gravity airResistance sY sVy time d in
    (Vector3.y (Droplet3D.position d2) < -50 -> Droplet3D.isDead d' = true)
    /\ (Vector3.y (Droplet3D.position d1) < -50 -> ~ Droplet3D.takes_bounce sY sVy d1 ->
        Droplet3D.isDead d' = true)
    /\ (Droplet3D.takes_bounce sY sVy d1 ->
        Vector3.y (Droplet3D.position d') = sY + Droplet3D.radius d
        /\ (Droplet3D.isDead d' = true <->
            Droplet3D.isDead d = true \/ sY + Droplet3D.radius d < -50)).
Proof.
  intros deltaTime gravity airResistance sY sVy time d d1 d2 d'.
  subst d'. unfold Droplet3D.update. fold d1. fold d2. split; [| split].
  - apply finish_isDead_below.
  - intros Hy Hn. apply finish_isDead_below.
    subst d2. rewrite (collide_position_no_bounce sY sVy time d1 Hn). exact Hy.
  - intros Hb.
    assert (Hp : Vector3.y (Droplet3D.position d2) = sY + Droplet3D.radius d)
      by (subst d2; rewrite (collide_bounce sY sVy time d1 Hb); reflexivity).
    assert (Hdead : Droplet3D.isDead d2 = Droplet3D.isDead d)
      by (subst d2; rewrite (collide_bounce sY sVy time d1 Hb); reflexivity).
    rewrite finish_position. split; [exact Hp |].
    destruct (Rlt_dec (sY + Droplet3D.radius d) (-50)) as [Hlow | Hhigh].
    + rewrite finish_isDead_below by (rewrite Hp; exact Hlow).
      split; [intros _; right; exact Hlow | reflexivity].
    + rewrite finish_isDead_above by (rewrite Hp; exact Hhigh).
      rewrite Hdead. split; [intros H; left; exact H |].
      intros [H | H]; [exact H | contradiction].
Qed.

Lemma floor_kill_after_collision_witness :
  Droplet3D.isDead (Droplet3D.update 0.016 9.8 0.02 (-100) 0 0 (droplet_at (-60) 0)) = true
  /\ Droplet3D.isDead
       (Droplet3D.update 0.016 9.8 0.02 (-100) 0 0 (droplet_at (-99.5) 0)) = true
  /\ Vector3.y (Droplet3D.position
                  (Droplet3D.update 0.016 9.8 0.02 (-100) 0 0 (droplet_at (-99.5) 0)))
     = -100 + 0.8.
Proof.
  split.
  - apply (proj1 (floor_kill_after_collision 0.016 9.8 0.02 (-100) 0 0
                    (droplet_at (-60) 0))).
    rewrite collide_position_no_bounce.
    + rewrite integrate_no_drag by (unfold Vector3.lengthSq; cbn; lra). cbn. lra.
    + unfold Droplet3D.takes_bounce.
      rewrite integrate_no_drag by (unfold Vector3.lengthSq; cbn; lra). cbn.
      intros (Hy & _). lra.
  - assert (Hb : Droplet3D.takes_bounce (-100) 0
                   (Droplet3D.integrate 0.016 9.8 0.02 (droplet_at (-99.5) 0))).
    { rewrite integrate_no_drag by (unfold Vector3.lengthSq; cbn; lra).
      repeat split; collision_arith. }
    destruct (proj2 (proj2 (floor_kill_after_collision 0.016 9.8 0.02 (-100) 0 0
                              (droplet_at (-99.5) 0))) Hb) as (Hp & Hdead).
    split; [| exact Hp].
    apply Hdead. right. cbn. lra.
Defined.

(** ** The wave field *)

(** A cosine of a linear function of time, scaled by a constant, and its
    derivative. *)
Lemma derivable_pt_lim_scaled_cos (c omega t : R) :
  derivable_pt_lim (fun t' => c * cos (omega * t')) t (- c * omega * sin (omega * t)).
Proof.
  assert (Hlin : derivable_pt_lim (fun t' => omega * t') t omega).
  { pose proof (derivable_pt_lim_scal (fun t' => t') omega t 1
                  (derivable_pt_lim_id t)) as H.
    replace (omega * 1) with omega in H by ring. exact H. }
  assert (Hcos : derivable_pt_lim (fun t' => cos (omega * t')) t (- sin (omega * t) * omega)).
  { apply (derivable_pt_lim_comp (fun t' => omega * t') cos).
    - exact Hlin.
    - apply derivable_pt_lim_cos. }
  replace (- c * omega * sin (omega * t)) with (c * (- sin (omega * t) * omega)) by ring.
  apply (derivable_pt_lim_scal (fun t' => cos (omega * t')) c). exact Hcos.
Qed.

(** C7.  [getWaveHeight] is [A cos(kx) cos(kz) cos(wt)] and [getSurfaceVelY]
    is [-A w cos(kx) cos(kz) sin(wt)], with [w = freq * 0.1] and the same
    [k = 0.2] in both; the second is the derivative of the first with
    respect to time at fixed [x] and [z]; and both depend on the simulator
    only through [freq] and [amp]. *)
Theorem wave_velocity_is_time_derivative_of_height :
  forall (this : SimulatorAdvanced.t) (x z t : R),
    let A := SimulatorAdvanced.amp this in
    let k := 0.2 in
    let omega := SimulatorAdvanced.freq this * 0.1 in
    SimulatorAdvanced.getWaveHeight this x z t
      = A * cos (k * x) * cos (k * z) * cos (omega * t)
    /\ SimulatorAdvanced.getSurfaceVelY this x z t
      = - A * omega * cos (k * x) * cos (k * z) * sin (omega * t)
    /\ derivable_pt_lim (fun t' => SimulatorAdvanced.getWaveHeight this x z t') t
                        (SimulatorAdvanced.getSurfaceVelY this x z t)
    /\ (forall this' : SimulatorAdvanced.t,
          SimulatorAdvanced.freq this' = SimulatorAdvanced.freq this ->
          SimulatorAdvanced.amp this' = SimulatorAdvanced.amp this ->
          SimulatorAdvanced.getWaveHeight this' x z t
            = SimulatorAdvanced.getWaveHeight this x z t
          /\ SimulatorAdvanced.getSurfaceVelY this' x z t
            = SimulatorAdvanced.getSurfaceVelY this x z t).
Proof.
  intros this x z t A k omega.
  split; [reflexivity |]. split; [reflexivity |]. split.
  - unfold SimulatorAdvanced.getWaveHeight, SimulatorAdvanced.getSurfaceVelY.
    fold A. fold omega.
    replace (- A * omega * cos (0.2 * x) * cos (0.2 * z) * sin (omega * t))
      with (- (A * cos (0.2 * x) * cos (0.2 * z)) * omega * sin (omega * t)) by ring.
    apply (derivable_pt_lim_scaled_cos (A * cos (0.2 * x) * cos (0.2 * z)) omega t).
  - intros this' Hf Ha.
    unfold SimulatorAdvanced.getWaveHeight, SimulatorAdvanced.getSurfaceVelY.
    rewrite Hf, Ha. split; reflexivity.
Qed.

Lemma wave_velocity_is_time_derivative_of_height_witness :
  SimulatorAdvanced.getWaveHeight (SimulatorAdvanced.set_gravity 1 sim0) 1 2 3
    = SimulatorAdvanced.getWaveHeight sim0 1 2 3.
Proof.
  apply (proj2 (proj2 (proj2
           (wave_velocity_is_time_derivative_of_height sim0 1 2 3)))
           (SimulatorAdvanced.set_gravity 1 sim0)); reflexivity.
Defined.

(** ** The history buffer *)

Section History.

Import SimulatorAdvanced.

Lemma recordFrame_MAX_HISTORY (this : t) :
  MAX_HISTORY (recordFrame this) = MAX_HISTORY this.
Proof.
  unfold recordFrame. destruct (MAX_HISTORY this <? _)%nat; reflexivity.
Qed.

Lemma recordFrame_flags (this : t) :
  isReplaying (recordFrame this) = isReplaying this
  /\ isRunning (recordFrame this) = isRunning this.
Proof.
  unfold recordFrame. destruct (MAX_HISTORY this <? _)%nat; split; reflexivity.
Qed.

(** One append: the buffer grows by one frame unless it already holds more
    than [MAX_HISTORY] frames, in which case its length stays. *)
Lemma recordFrame_length (this : t) :
  length (history (recordFrame this)) =
  if (MAX_HISTORY this <? length (history this))%nat
  then length (history this)
  else S (length (history this)).
Proof.
  unfold recordFrame.
  destruct (MAX_HISTORY this <? length (history this))%nat eqn:E; cbn;
    rewrite length_app; cbn.
  - apply Nat.ltb_lt in E. unfold shift.
    destruct (history this) as [| f h]; cbn in *; lia.
  - lia.
Qed.

(** The frames one append keeps: all of them, or all but the oldest, then
    the new one at the end. *)
Lemma recordFrame_history (this : t) :
  exists frame,
    Frame.waterTime frame = time this
    /\ Frame.droplets frame = map Snapshot.of_droplet (droplets this)
    /\ history (recordFrame this) =
       (if (MAX_HISTORY this <? length (history this))%nat
        then tl (history this) else history this) ++ [frame].
Proof.
  exists (Frame.mk (map Snapshot.of_droplet (droplets this)) (time this)).
  repeat split. unfold recordFrame.
  destruct (MAX_HISTORY this <? length (history this))%nat; reflexivity.
Qed.

Lemma iter_recordFrame_MAX_HISTORY (n : nat) (this : t) :
  MAX_HISTORY (Nat.iter n recordFrame this) = MAX_HISTORY this.
Proof.
  induction n as [| n IH]; [reflexivity |].
  rewrite Nat.iter_succ, recordFrame_MAX_HISTORY. exact IH.
Qed.

(** [n] appends in a row: the length saturates at [MAX_HISTORY + 1]. *)
Lemma iter_recordFrame_length (n : nat) (this : t) :
  (length (history this) <= MAX_HISTORY this + 1)%nat ->
  length (history (Nat.iter n recordFrame this)) =
  Nat.min (length (history this) + n) (MAX_HISTORY this + 1).
Proof.
  intros H0. induction n as [| n IH].
  - cbn. lia.
  - rewrite Nat.iter_succ, recordFrame_length, iter_recordFrame_MAX_HISTORY, IH.
    destruct (MAX_HISTORY this <? _)%nat eqn:E.
    + apply Nat.ltb_lt in E. lia.
    + apply Nat.ltb_ge in E. lia.
Qed.

(** The bound the code does keep: one more than [MAX_HISTORY]. *)
Lemma recordFrame_length_bound (this : t) :
  (length (history this) <= MAX_HISTORY this + 1)%nat ->
  (length (history (recordFrame this)) <= MAX_HISTORY (recordFrame this) + 1)%nat.
Proof.
  intros H. rewrite recordFrame_length, recordFrame_MAX_HISTORY.
  destruct (MAX_HISTORY this <? _)%nat eqn:E.
  - exact H.
  - apply Nat.ltb_ge in E. lia.
Qed.

(** A live tick appends one frame through [recordFrame] and stays live;
    nothing else in it touches the history. *)
Lemma animate_live (this : t) :
  isReplaying this = false -> isRunning this = true ->
  isReplaying (animate this) = false
  /\ isRunning (animate this) = true
  /\ MAX_HISTORY (animate this) = MAX_HISTORY this
  /\ length (history (animate this)) =
     if (MAX_HISTORY this <? length (history this))%nat
     then length (history this)
     else S (length (history this)).
Proof.
  intros Hr Hrun. unfold animate. rewrite Hr, Hrun.
  set (this1 := stepDroplets _).
  assert (H1 : isReplaying (recordFrame this1) = false
               /\ isRunning (recordFrame this1) = true
               /\ MAX_HISTORY (recordFrame this1) = MAX_HISTORY this
               /\ length (history (recordFrame this1)) =
                  if (MAX_HISTORY this <? length (history this))%nat
                  then length (history this)
                  else S (length (history this))).
  { rewrite recordFrame_length, recordFrame_MAX_HISTORY.
    destruct (recordFrame_flags this1) as (Hr1 & Hrun1).
    rewrite Hr1, Hrun1. subst this1. cbn. repeat split; assumption. }
  destruct H1 as (Hr1 & Hrun1 & HM1 & Hl1).
  set (this2 := recordFrame this1) in *.
  rewrite Hr1. simpl negb. cbv iota.
  destruct (replayPool this2); [| repeat split; assumption].
  unfold set_replayPool. cbn [isReplaying isRunning MAX_HISTORY history].
  repeat split; assumption.
Qed.

Lemma iter_animate_live (n : nat) (this : t) :
  isReplaying this = false -> isRunning this = true ->
  (length (history this) <= MAX_HISTORY this + 1)%nat ->
  isReplaying (Nat.iter n animate this) = false
  /\ isRunning (Nat.iter n animate this) = true
  /\ MAX_HISTORY (Nat.iter n animate this) = MAX_HISTORY this
  /\ length (history (Nat.iter n animate this)) =
     Nat.min (length (history this) + n) (MAX_HISTORY this + 1).
Proof.
  intros Hr Hrun H0. induction n as [| n IH].
  - cbn. repeat split; try assumption. lia.
  - destruct IH as (Hr' & Hrun' & HM' & Hl').
    rewrite Nat.iter_succ.
    destruct (animate_live (Nat.iter n animate this) Hr' Hrun')
      as (Hr2 & Hrun2 & HM2 & Hl2).
    repeat split; try assumption; [congruence |].
    rewrite Hl2, HM', Hl'.
    destruct (MAX_HISTORY this <? _)%nat eqn:E.
    + apply Nat.ltb_lt in E. lia.
    + apply Nat.ltb_ge in E. lia.
Qed.

End History.

(** C1.  What the code does at the failing input: from the empty history of
    a new simulator, whose [MAX_HISTORY] is 1200, 1200 appends fill the
    buffer to 1200 frames; the next append evicts nothing and leaves 1201
    frames, one more than [MAX_HISTORY]; and the length stays 1201 from then
    on.  1201 live ticks after the start button reach the same length. *)
Theorem recordFrame_exceeds_MAX_HISTORY :
  SimulatorAdvanced.MAX_HISTORY sim0 = 1200%nat
  /\ length (SimulatorAdvanced.history
               (Nat.iter 1200 SimulatorAdvanced.recordFrame sim0)) = 1200%nat
  /\ length (SimulatorAdvanced.history
               (Nat.iter 1201 SimulatorAdvanced.recordFrame sim0)) = 1201%nat
  /\ (forall n : nat, (1201 <= n)%nat ->
        length (SimulatorAdvanced.history
                  (Nat.iter n SimulatorAdvanced.recordFrame sim0)) = 1201%nat)
  /\ length (SimulatorAdvanced.history
               (Nat.iter 1201 SimulatorAdvanced.animate
                         (SimulatorAdvanced.startBtn sim0))) = 1201%nat.
Proof.
  assert (HM : SimulatorAdvanced.MAX_HISTORY sim0 = 1200%nat) by reflexivity.
  assert (H0 : length (SimulatorAdvanced.history sim0) = 0%nat) by reflexivity.
  assert (Hn : forall n,
             length (SimulatorAdvanced.history
                       (Nat.iter n SimulatorAdvanced.recordFrame sim0))
             = Nat.min n 1201).
  { intros n. rewrite iter_recordFrame_length; rewrite HM, H0; [| lia].
    f_equal. }
  split; [exact HM |]. split; [| split; [| split]].
  - rewrite Hn. apply Nat.min_l. lia.
  - rewrite Hn. apply Nat.min_r. lia.
  - intros n Hle. rewrite Hn. apply Nat.min_r. exact Hle.
  - destruct (iter_animate_live 1201 (SimulatorAdvanced.startBtn sim0))
      as (_ & _ & _ & Hl); [reflexivity | reflexivity | |].
    + change (0 <= 1200 + 1)%nat. lia.
    + rewrite Hl.
      change (Nat.min (0 + 1201) (1200 + 1) = 1201%nat). apply Nat.min_r. lia.
Qed.

(** ** Configuration *)

(** C3, as stated, fails.  The mass slider delivering -1 is obeyed: the
    prior mass 5 is not kept, and the next droplet spawned carries the mass
    -1 into the integrator.  Delivered as JavaScript numbers, a mass of NaN
    or of 0 and a gravity of Infinity are stored just the same. *)
Lemma setConfig_not_rejected :
  (SimulatorAdvanced.mass sim0 = 5
   /\ SimulatorAdvanced.mass (SimulatorAdvanced.bindSlider Tmass (-1) sim0) = -1
   /\ SimulatorAdvanced.mass (SimulatorAdvanced.bindSlider Tmass (-1) sim0)
      <> SimulatorAdvanced.mass sim0
   /\ map Droplet3D.mass
          (SimulatorAdvanced.droplets
             (SimulatorAdvanced.spawnDroplet 0.5 0.5
                (SimulatorAdvanced.bindSlider Tmass (-1) sim0))) = [-1])
  /\ (SimulatorAdvanced.mass sim0_js = Finite 5
      /\ SimulatorAdvanced.mass (SimulatorAdvanced.bindSlider Tmass NaN sim0_js) = NaN
      /\ SimulatorAdvanced.mass (SimulatorAdvanced.bindSlider Tmass NaN sim0_js)
         <> SimulatorAdvanced.mass sim0_js
      /\ SimulatorAdvanced.mass (SimulatorAdvanced.bindSlider Tmass (Finite 0) sim0_js)
         = Finite 0
      /\ SimulatorAdvanced.gravity
           (SimulatorAdvanced.bindSlider Tgravity Infinity sim0_js) = Infinity
      /\ SimulatorAdvanced.gravity
           (SimulatorAdvanced.bindSlider Tgravity Infinity sim0_js)
         <> SimulatorAdvanced.gravity sim0_js).
Proof.
  split.
  - cbn. repeat split; try reflexivity. lra.
  - assert (Hm : SimulatorAdvanced.mass sim0_js = Finite 5) by reflexivity.
    assert (Hg : SimulatorAdvanced.gravity sim0_js = Finite 9.8) by reflexivity.
    split; [exact Hm |]. split; [reflexivity |].
    split; [rewrite Hm; discriminate |]. split; [reflexivity |].
    split; [reflexivity |]. rewrite Hg. discriminate.
Qed.

(** The listener does the same on a simulator of finite numbers and on
    that simulator seen through JavaScript numbers. *)
Lemma bindSlider_with_config {num num' : Type} (f : num -> num')
  (target : SliderTarget) (value : num) (this : SimulatorAdvanced.state num) :
  SimulatorAdvanced.with_config f (SimulatorAdvanced.bindSlider target value this)
  = SimulatorAdvanced.bindSlider target (f value) (SimulatorAdvanced.with_config f this).
Proof. destruct target; reflexivity. Qed.

(** C3, amended.  A slider listener stores the value it is given in its
    field, whatever the value (a finite number of any sign, NaN, an
    infinity) and whichever the field; no value is refused, the prior value
    is not kept, and every other field of the simulator stays as it was. *)
Theorem bindSlider_stores_any_value :
  forall (num : Type) (target : SliderTarget) (value : num)
         (this : SimulatorAdvanced.state num),
    let this' := SimulatorAdvanced.bindSlider target value this in
    SimulatorAdvanced.get_target target this' = value
    /\ (forall other : SliderTarget, other <> target ->
          SimulatorAdvanced.get_target other this'
            = SimulatorAdvanced.get_target other this)
    /\ SimulatorAdvanced.droplets this' = SimulatorAdvanced.droplets this
    /\ SimulatorAdvanced.isRunning this' = SimulatorAdvanced.isRunning this
    /\ SimulatorAdvanced.time this' = SimulatorAdvanced.time this
    /\ SimulatorAdvanced.rainMode this' = SimulatorAdvanced.rainMode this
    /\ SimulatorAdvanced.dropletSize this' = SimulatorAdvanced.dropletSize this
    /\ SimulatorAdvanced.history this' = SimulatorAdvanced.history this
    /\ SimulatorAdvanced.isReplaying this' = SimulatorAdvanced.isReplaying this
    /\ SimulatorAdvanced.replayFrame this' = SimulatorAdvanced.replayFrame this
    /\ SimulatorAdvanced.MAX_HISTORY this' = SimulatorAdvanced.MAX_HISTORY this
    /\ SimulatorAdvanced.replayPool this' = SimulatorAdvanced.replayPool this
    /\ SimulatorAdvanced.waterMesh this' = SimulatorAdvanced.waterMesh this.
Proof.
  intros num target value this this'. subst this'.
  split; [destruct target; reflexivity |].
  split; [| destruct target; repeat split].
  intros other Hne. destruct target, other; try reflexivity; contradiction.
Qed.

Lemma bindSlider_stores_any_value_witness :
  SimulatorAdvanced.get_target Tgravity
    (SimulatorAdvanced.bindSlider Tmass NaN sim0_js) = Finite 9.8
  /\ SimulatorAdvanced.get_target Tmass
       (SimulatorAdvanced.bindSlider Tmass NaN sim0_js) = NaN
  /\ SimulatorAdvanced.get_target Tmass (SimulatorAdvanced.bindSlider Tmass 0 sim0) = 0.
Proof.
  destruct (bindSlider_stores_any_value jsnumber Tmass NaN sim0_js)
    as (Hset & Hother & _).
  split; [| split; [exact Hset |]].
  - rewrite (Hother Tgravity); [reflexivity | discriminate].
  - exact (proj1 (bindSlider_stores_any_value R Tmass 0 sim0)).
Defined.

(** ** Replay *)

Section Replay.

Import SimulatorAdvanced.

(** An index in bounds reads a frame; any other reads [undefined]. *)
Lemma array_get_in_bounds {A : Type} (a : list A) (i : jsint) :
  in_bounds a i -> exists v, array_get a i = Some v.
Proof.
  destruct i as [| z]; cbn; [contradiction |]. intros [H0 Hlt].
  destruct (z <? 0)%Z eqn:E; [apply Z.ltb_lt in E; lia |].
  destruct (nth_error a (Z.to_nat z)) as [v |] eqn:En; [eauto |].
  apply nth_error_None in En. lia.
Qed.

Lemma array_get_out_of_bounds {A : Type} (a : list A) (i : jsint) :
  ~ in_bounds a i -> array_get a i = None.
Proof.
  destruct i as [| z]; cbn; [reflexivity |]. intros Hn.
  destruct (z <? 0)%Z eqn:E; [reflexivity |].
  apply Z.ltb_ge in E. apply nth_error_None. lia.
Qed.

Lemma renderReplay_out_of_bounds (this : t) :
  ~ in_bounds (history this) (replayFrame this) -> renderReplay this = this.
Proof.
  intros Hn. unfold renderReplay.
  rewrite (array_get_out_of_bounds _ _ Hn). reflexivity.
Qed.

(** Hiding a mesh changes nothing of a droplet but the flag. *)
Lemma physical_hide (ds : list Droplet3D.t) :
  map Droplet3D.physical
      (map (fun d => Droplet3D.set_mesh d (set_visible false (Droplet3D.mesh d))) ds)
  = map Droplet3D.physical ds.
Proof.
  rewrite map_map. apply map_ext. intros d. reflexivity.
Qed.

(** What [renderReplay] leaves alone, whether it finds a frame or not. *)
Lemma renderReplay_frame (this : t) :
  history (renderReplay this) = history this
  /\ time (renderReplay this) = time this
  /\ isReplaying (renderReplay this) = isReplaying this
  /\ replayFrame (renderReplay this) = replayFrame this
  /\ map Droplet3D.physical (droplets (renderReplay this))
     = map Droplet3D.physical (droplets this).
Proof.
  unfold renderReplay.
  destruct (array_get (history this) (replayFrame this)) as [frame |].
  - cbn. repeat split. apply physical_hide.
  - repeat split.
Qed.

(** In Replay an animation frame is [renderReplay] and nothing more. *)
Lemma animate_replaying (this : t) :
  isReplaying this = true -> animate this = renderReplay this.
Proof.
  intros H. unfold animate. rewrite H.
  destruct (renderReplay_frame this) as (_ & _ & Hr & _).
  rewrite Hr, H. reflexivity.
Qed.

Lemma renderReplay_rainMode (this : t) :
  rainMode (renderReplay this) = rainMode this.
Proof.
  unfold renderReplay.
  destruct (array_get (history this) (replayFrame this)); reflexivity.
Qed.

Lemma startReplay_enters (this : t) :
  isReplaying this = false -> replay_invariant this 0 (startReplay this).
Proof.
  intros H. unfold replay_invariant, startReplay. cbn. rewrite H. cbn.
  repeat split. exists []. split; [reflexivity |].
  cbn. rewrite app_nil_r. reflexivity.
Qed.

(** How many droplets one action of a stay adds. *)
Lemma replayStep_invariant (this0 this : t) (n : nat) (a : ReplayAction) :
  replay_invariant this0 n this ->
  replay_invariant this0
    (n + (if rainMode this0 then timer_firings [a] else 0)) (replayStep this a).
Proof.
  intros (Hr & Hrain & Hh & Ht & spawned & Hn & Hd).
  destruct a as [value | | r1 r2]; cbn [replayStep timer_firings filter length].
  - replace (n + (if rainMode this0 then 0 else 0))%nat with n
      by (destruct (rainMode this0); lia).
    unfold replaySlider. rewrite Hr. cbn.
    repeat split; try assumption. exists spawned. split; assumption.
  - replace (n + (if rainMode this0 then 0 else 0))%nat with n
      by (destruct (rainMode this0); lia).
    rewrite (animate_replaying _ Hr).
    destruct (renderReplay_frame this) as (Hh' & Ht' & Hr' & _ & Hd').
    unfold replay_invariant.
    rewrite Hh', Ht', Hr', Hd', renderReplay_rainMode.
    repeat split; try assumption. exists spawned. split; assumption.
  - rewrite Hrain. destruct (rainMode this0) eqn:E.
    + unfold replay_invariant, spawnDroplet. cbv zeta.
      cbn [isReplaying rainMode history time droplets set_droplets].
      split; [exact Hr |]. split; [congruence |].
      split; [exact Hh |]. split; [exact Ht |].
      exists (spawned ++ [Droplet3D.new ((r1 - 0.5) * 40) 40 ((r2 - 0.5) * 40)
                                        (mass this) (dropletSize this)]).
      split; [rewrite length_app; cbn; lia |].
      rewrite !map_app, Hd, app_assoc. reflexivity.
    + replace (n + 0)%nat with n by lia.
      split; [exact Hr |]. split; [congruence |].
      split; [exact Hh |]. split; [exact Ht |].
      exists spawned. split; assumption.
Qed.

Lemma timer_firings_cons (a : ReplayAction) (actions : list ReplayAction) :
  timer_firings (a :: actions) = (timer_firings [a] + timer_firings actions)%nat.
Proof.
  unfold timer_firings. cbn. destruct a; reflexivity.
Qed.

Lemma fold_replayStep_invariant (actions : list ReplayAction) (this0 this : t) (n : nat) :
  replay_invariant this0 n this ->
  replay_invariant this0
    (n + (if rainMode this0 then timer_firings actions else 0))
    (fold_left replayStep actions this).
Proof.
  revert this n. induction actions as [| a actions IH]; intros this n H.
  - cbn [fold_left]. replace (n + _)%nat with n; [exact H |].
    unfold timer_firings. cbn. destruct (rainMode this0); lia.
  - cbn [fold_left].
    replace (n + (if rainMode this0 then timer_firings (a :: actions) else 0))%nat
      with (n + (if rainMode this0 then timer_firings [a] else 0)
            + (if rainMode this0 then timer_firings actions else 0))%nat
      by (destruct (rainMode this0);
          [rewrite (timer_firings_cons a actions); lia | lia]).
    apply IH. apply replayStep_invariant. exact H.
Qed.

Lemma startReplay_leaves (this0 this : t) (n : nat) :
  replay_invariant this0 n this ->
  isReplaying (startReplay this) = false
  /\ history (startReplay this) = history this0
  /\ time (startReplay this) = time this0
  /\ exists spawned : list Droplet3D.t,
       length spawned = n
       /\ map Droplet3D.physical (droplets (startReplay this))
          = map Droplet3D.physical (droplets this0) ++ map Droplet3D.physical spawned.
Proof.
  intros (Hr & _ & Hh & Ht & Hd). unfold startReplay. cbn. rewrite Hr. cbn.
  repeat split; assumption.
Qed.

(** A whole stay in Replay, with whatever the rain timer added. *)
Lemma replaySession_spec (actions : list ReplayAction) (this : t) :
  isReplaying this = false ->
  let n := if rainMode this then timer_firings actions else 0%nat in
  replay_invariant this n (duringReplay actions this)
  /\ isReplaying (replaySession actions this) = false
  /\ history (replaySession actions this) = history this
  /\ time (replaySession actions this) = time this
  /\ exists spawned : list Droplet3D.t,
       length spawned = n
       /\ map Droplet3D.physical (droplets (replaySession actions this))
          = map Droplet3D.physical (droplets this) ++ map Droplet3D.physical spawned.
Proof.
  intros Hlive n.
  assert (Hinv : replay_invariant this n (duringReplay actions this)).
  { unfold duringReplay.
    apply (fold_replayStep_invariant actions this (startReplay this) 0).
    apply startReplay_enters. exact Hlive. }
  split; [exact Hinv |].
  apply (startReplay_leaves this (duringReplay actions this) n Hinv).
Qed.

End Replay.

(** C2, as stated, fails: in Replay over a history of two frames, a scrub
    to index 5 leaves the cursor at 5, not at the last index 1, and the
    cursor then reads no frame of the history. *)
Lemma scrub_not_clamped :
  let this := SimulatorAdvanced.startReplay sim2 in
  let this' := SimulatorAdvanced.replaySlider (JInt 5) this in
  SimulatorAdvanced.isReplaying this = true
  /\ length (SimulatorAdvanced.history this) = 2%nat
  /\ SimulatorAdvanced.replayFrame this' = JInt 5
  /\ SimulatorAdvanced.replayFrame this' <> JInt 1
  /\ array_get (SimulatorAdvanced.history this') (SimulatorAdvanced.replayFrame this')
     = None.
Proof.
  intros this this'.
  assert (H5 : SimulatorAdvanced.replayFrame this' = JInt 5) by reflexivity.
  repeat split; try reflexivity.
  rewrite H5. discriminate.
Qed.

(** C2, amended.  In Replay a scrub always succeeds and sets the cursor to
    the requested index as it is, leaving the rest of the state alone.  A
    requested index within [[0, length - 1]] makes the cursor read that
    frame; with any other, the cursor reads no frame and rendering the
    replay changes nothing. *)
Theorem scrub_sets_cursor_as_requested :
  forall (value : jsint) (this : SimulatorAdvanced.t),
    SimulatorAdvanced.isReplaying this = true ->
    let this' := SimulatorAdvanced.replaySlider value this in
    SimulatorAdvanced.replayFrame this' = value
    /\ this' = SimulatorAdvanced.set_replayFrame value this
    /\ SimulatorAdvanced.history this' = SimulatorAdvanced.history this
    /\ (in_bounds (SimulatorAdvanced.history this) value ->
        exists frame,
          array_get (SimulatorAdvanced.history this')
                    (SimulatorAdvanced.replayFrame this') = Some frame)
    /\ (~ in_bounds (SimulatorAdvanced.history this) value ->
        array_get (SimulatorAdvanced.history this')
                  (SimulatorAdvanced.replayFrame this') = None
        /\ SimulatorAdvanced.renderReplay this' = this'
        /\ SimulatorAdvanced.animate this' = this').
Proof.
  intros value this Hr this'. subst this'.
  unfold SimulatorAdvanced.replaySlider. rewrite Hr. cbn.
  split; [reflexivity |]. split; [reflexivity |]. split; [reflexivity |]. split.
  - apply array_get_in_bounds.
  - intros Hn. split; [apply array_get_out_of_bounds; exact Hn |].
    assert (Hrr : SimulatorAdvanced.renderReplay
                    (SimulatorAdvanced.set_replayFrame value this)
                  = SimulatorAdvanced.set_replayFrame value this)
      by (apply renderReplay_out_of_bounds; exact Hn).
    split; [exact Hrr |].
    rewrite animate_replaying by exact Hr. exact Hrr.
Qed.

Lemma scrub_sets_cursor_as_requested_witness :
  SimulatorAdvanced.replayFrame
    (SimulatorAdvanced.replaySlider (JInt 0) (SimulatorAdvanced.startReplay sim2))
  = JInt 0
  /\ SimulatorAdvanced.replayFrame
       (SimulatorAdvanced.replaySlider (JInt (-3)) (SimulatorAdvanced.startReplay sim2))
     = JInt (-3).
Proof.
  split.
  - apply (scrub_sets_cursor_as_requested (JInt 0) (SimulatorAdvanced.startReplay sim2)).
    reflexivity.
  - apply (scrub_sets_cursor_as_requested (JInt (-3)) (SimulatorAdvanced.startReplay sim2)).
    reflexivity.
Defined.

(** C6.  What the code does at the failing input: a running simulator
    with rain mode on, one live droplet and two frames enters Replay; during
    the stay the rain timer fires once, between two animation frames; Replay
    is left.  The live collection then holds two droplets instead of one: it
    is not what it was when Replay was entered.  The time and the history
    are. *)
Theorem replay_with_rain_on_spawns_droplets :
  let actions := [SimulatorAdvanced.AnimationFrame;
                  SimulatorAdvanced.RainTimer 0.25 0.75;
                  SimulatorAdvanced.AnimationFrame] in
  let during := SimulatorAdvanced.duringReplay actions sim2_rain in
  let after := SimulatorAdvanced.replaySession actions sim2_rain in
  SimulatorAdvanced.isReplaying sim2_rain = false
  /\ SimulatorAdvanced.rainMode sim2_rain = true
  /\ length (SimulatorAdvanced.droplets sim2_rain) = 1%nat
  /\ SimulatorAdvanced.isReplaying during = true
  /\ length (SimulatorAdvanced.droplets during) = 2%nat
  /\ length (SimulatorAdvanced.droplets after) = 2%nat
  /\ map Droplet3D.physical (SimulatorAdvanced.droplets after)
     <> map Droplet3D.physical (SimulatorAdvanced.droplets sim2_rain)
  /\ SimulatorAdvanced.time after = SimulatorAdvanced.time sim2_rain
  /\ SimulatorAdvanced.history after = SimulatorAdvanced.history sim2_rain.
Proof.
  intros actions during after.
  assert (Hlive : SimulatorAdvanced.isReplaying sim2_rain = false) by reflexivity.
  assert (Hrain : SimulatorAdvanced.rainMode sim2_rain = true) by reflexivity.
  assert (Hone : length (SimulatorAdvanced.droplets sim2_rain) = 1%nat) by reflexivity.
  destruct (replaySession_spec actions sim2_rain Hlive)
    as ((Hr & _ & _ & _ & sp1 & Hn1 & Hd1) & _ & Hh & Ht & sp2 & Hn2 & Hd2).
  fold during in Hr, Hd1. fold after in Hh, Ht, Hd2.
  rewrite Hrain in Hn1, Hn2.
  change (SimulatorAdvanced.timer_firings actions) with 1%nat in Hn1, Hn2.
  assert (Hl1 : length (SimulatorAdvanced.droplets during) = 2%nat).
  { rewrite <- (length_map Droplet3D.physical), Hd1, length_app, !length_map, Hone, Hn1.
    reflexivity. }
  assert (Hl2 : length (SimulatorAdvanced.droplets after) = 2%nat).
  { rewrite <- (length_map Droplet3D.physical), Hd2, length_app, !length_map, Hone, Hn2.
    reflexivity. }
  repeat split; try assumption.
  intros Heq. apply (f_equal (@length _)) in Heq.
  rewrite !length_map, Hl2, Hone in Heq. discriminate.
Qed.

(** C10.  With the replay cursor outside the bounds of the history,
    [renderReplay] returns the simulator as it was: history, droplets,
    time and all the rest; and so does a whole animation frame in
    Replay. *)
Theorem renderReplay_out_of_bounds_is_noop :
  forall this : SimulatorAdvanced.t,
    ~ in_bounds (SimulatorAdvanced.history this) (SimulatorAdvanced.replayFrame this) ->
    SimulatorAdvanced.renderReplay this = this
    /\ SimulatorAdvanced.history (SimulatorAdvanced.renderReplay this)
       = SimulatorAdvanced.history this
    /\ SimulatorAdvanced.droplets (SimulatorAdvanced.renderReplay this)
       = SimulatorAdvanced.droplets this
    /\ SimulatorAdvanced.time (SimulatorAdvanced.renderReplay this)
       = SimulatorAdvanced.time this
    /\ (SimulatorAdvanced.isReplaying this = true ->
        SimulatorAdvanced.animate this = this).
Proof.
  intros this Hn.
  pose proof (renderReplay_out_of_bounds this Hn) as Hrr.
  rewrite Hrr. repeat split.
  intros Hr. rewrite animate_replaying by exact Hr. exact Hrr.
Qed.

Lemma renderReplay_out_of_bounds_is_noop_witness :
  let this := SimulatorAdvanced.startReplay (SimulatorAdvanced.reset sim2) in
  SimulatorAdvanced.isReplaying this = true
  /\ SimulatorAdvanced.replayFrame this = JInt (-1)
  /\ SimulatorAdvanced.renderReplay this = this.
Proof.
  intros this.
  assert (Hout : ~ in_bounds (SimulatorAdvanced.history this)
                             (SimulatorAdvanced.replayFrame this))
    by (change (~ (0 <= -1 < 0)%Z); lia).
  split; [reflexivity |]. split; [reflexivity |].
  exact (proj1 (renderReplay_out_of_bounds_is_noop this Hout)).
Defined.

(** * Further properties of the droplet *)

Section DropletUpdate.

Import Droplet3D.

Variables deltaTime gravity airResistance surfaceY surfaceVelY time : R.
Variable d : Droplet3D.t.

(** The integration step writes the position and the velocity only. *)
Lemma integrate_frame :
  mass (integrate deltaTime gravity airResistance d) = mass d
  /\ radius (integrate deltaTime gravity airResistance d) = radius d
  /\ mesh (integrate deltaTime gravity airResistance d) = mesh d
  /\ isDead (integrate deltaTime gravity airResistance d) = isDead d
  /\ lastBounceTime (integrate deltaTime gravity airResistance d) = lastBounceTime d.
Proof. repeat split. Qed.

(** The collision handling writes the vertical components and the alive
    flag only. *)
Lemma collide_frame :
  mass (collide surfaceY surfaceVelY time d) = mass d
  /\ radius (collide surfaceY surfaceVelY time d) = radius d
  /\ mesh (collide surfaceY surfaceVelY time d) = mesh d
  /\ lastBounceTime (collide surfaceY surfaceVelY time d) = lastBounceTime d
  /\ Vector3.x (position (collide surfaceY surfaceVelY time d)) = Vector3.x (position d)
  /\ Vector3.z (position (collide surfaceY surfaceVelY time d)) = Vector3.z (position d)
  /\ Vector3.x (velocity (collide surfaceY surfaceVelY time d)) = Vector3.x (velocity d)
  /\ Vector3.z (velocity (collide surfaceY surfaceVelY time d)) = Vector3.z (velocity d).
Proof.
  unfold collide, handleSurfaceCollision.
  destruct (Rle_dec _ surfaceY); [| repeat split].
  destruct (Rlt_dec _ 0); [| repeat split].
  destruct (bounces _ surfaceVelY); repeat split.
Qed.

Lemma collide_isDead :
  isDead (collide surfaceY surfaceVelY time d) = true <->
  isDead d = true \/ takes_splash surfaceY surfaceVelY d.
Proof.
  unfold collide, takes_splash. split.
  - destruct (Rle_dec _ surfaceY) as [Hy | Hy]; [| intros H; left; exact H].
    destruct (Rlt_dec (relativeVelY d surfaceVelY) 0) as [Hr | Hr].
    + destruct (Rlt_dec (impactSpeed d surfaceVelY) 25) as [Hi | Hi].
      * destruct (Rgt_dec surfaceVelY (-2)) as [Hs | Hs].
        -- rewrite (handleSurfaceCollision_bounce surfaceY surfaceVelY time d Hr Hi Hs).
           cbn. intros H; left; exact H.
        -- intros _. right. repeat split; try assumption. right. lra.
      * intros _. right. repeat split; try assumption. left. lra.
    + rewrite handleSurfaceCollision_no_impact by lra. intros H; left; exact H.
  - intros [H | (Hy & Hr & Hs)].
    + destruct (Rle_dec _ surfaceY); [| exact H].
      unfold handleSurfaceCollision.
      destruct (Rlt_dec _ 0); [| exact H].
      destruct (bounces _ surfaceVelY); [exact H | reflexivity].
    + destruct (Rle_dec _ surfaceY) as [_ | n]; [| contradiction].
      rewrite (handleSurfaceCollision_splash surfaceY surfaceVelY time d Hr Hs).
      reflexivity.
Qed.

Lemma finish_isDead :
  isDead (finish d) = true <-> isDead d = true \/ Vector3.y (position d) < -50.
Proof.
  unfold finish. cbn. destruct (Rlt_dec _ (-50)) as [l | n]; cbn.
  - split; [intros _; right; exact l | reflexivity].
  - split; [intros H; left; exact H | intros [H | H]; [exact H | contradiction]].
Qed.

Lemma finish_frame :
  position (finish d) = position d
  /\ velocity (finish d) = velocity d
  /\ mass (finish d) = mass d
  /\ radius (finish d) = radius d
  /\ lastBounceTime (finish d) = lastBounceTime d
  /\ visible (mesh (finish d)) = visible (mesh d)
  /\ mesh_position (mesh (finish d)) = position d.
Proof.
  unfold finish. cbn. destruct (Rlt_dec _ (-50)); repeat split.
Qed.

(** When the collision handling does nothing to the droplet. *)
Lemma collide_no_impact :
  ~ Vector3.y (position d) - radius d <= surfaceY \/ relativeVelY d surfaceVelY >= 0 ->
  collide surfaceY surfaceVelY time d = d.
Proof.
  intros H. unfold collide.
  destruct (Rle_dec _ surfaceY) as [Hy | _]; [| reflexivity].
  destruct H as [H | H]; [contradiction |].
  apply handleSurfaceCollision_no_impact. exact H.
Qed.

End DropletUpdate.

(** X1.  An update never changes the mass, the radius or the visibility of
    a droplet, leaves its mesh where the droplet is, and never revives a
    dead droplet. *)
Theorem update_keeps_identity_and_death :
  forall (deltaTime gravity airResistance sY sVy time : R) (d : Droplet3D.t),
    let d' := Droplet3D.update deltaTime gravity airResistance sY sVy time d in
    Droplet3D.mass d' = Droplet3D.mass d
    /\ Droplet3D.radius d' = Droplet3D.radius d
    /\ visible (Droplet3D.mesh d') = visible (Droplet3D.mesh d)
    /\ mesh_position (Droplet3D.mesh d') = Droplet3D.position d'
    /\ (Droplet3D.isDead d = true -> Droplet3D.isDead d' = true).
Proof.
  intros deltaTime gravity airResistance sY sVy time d d'. subst d'.
  unfold Droplet3D.update.
  set (d1 := Droplet3D.integrate deltaTime gravity airResistance d).
  set (d2 := Droplet3D.collide sY sVy time d1).
  destruct (finish_frame d2) as (Hp & _ & Hm & Hr & _ & Hv & Hmp).
  destruct (collide_frame sY sVy time d1) as (Hm2 & Hr2 & Hmesh2 & _).
  fold d2 in Hm2, Hr2, Hmesh2.
  rewrite Hm, Hr, Hv, Hmp, Hp, Hm2, Hr2, Hmesh2.
  repeat split.
  intros Hdead. apply finish_isDead. left. apply collide_isDead. left. exact Hdead.
Qed.

Lemma update_keeps_identity_and_death_witness :
  Droplet3D.isDead
    (Droplet3D.update 0.016 9.8 0.02 0 0 0
       (Droplet3D.set_isDead (droplet_at 1 (-10)) true)) = true.
Proof.
  apply (update_keeps_identity_and_death 0.016 9.8 0.02 0 0 0
           (Droplet3D.set_isDead (droplet_at 1 (-10)) true)).
  reflexivity.
Defined.

(** X2.  An update leaves a droplet dead in exactly three cases: it was
    dead before, or the collision of this update is a splash, or its
    position after the collision handling is below -50. *)
Theorem update_dead_iff :
  forall (deltaTime gravity airResistance sY sVy time : R) (d : Droplet3D.t),
    let d1 := Droplet3D.integrate deltaTime gravity airResistance d in
    let d2 := Droplet3D.collide sY sVy time d1 in
    Droplet3D.isDead (Droplet3D.update deltaTime gravity airResistance sY sVy time d) = true
    <-> Droplet3D.isDead d = true
        \/ Droplet3D.takes_splash sY sVy d1
        \/ Vector3.y (Droplet3D.position d2) < -50.
Proof.
  intros deltaTime gravity airResistance sY sVy time d d1 d2.
  unfold Droplet3D.update. fold d1. fold d2.
  rewrite finish_isDead. unfold d2 at 1. rewrite collide_isDead.
  change (Droplet3D.isDead d1) with (Droplet3D.isDead d). tauto.
Qed.

(** X3.  The collision handling acts on the vertical axis only: after an
    update the horizontal components of the position and of the velocity
    are those the integration step produced. *)
Theorem update_collision_is_vertical :
  forall (deltaTime gravity airResistance sY sVy time : R) (d : Droplet3D.t),
    let d1 := Droplet3D.integrate deltaTime gravity airResistance d in
    let d' := Droplet3D.update deltaTime gravity airResistance sY sVy time d in
    Vector3.x (Droplet3D.position d') = Vector3.x (Droplet3D.position d1)
    /\ Vector3.z (Droplet3D.position d') = Vector3.z (Droplet3D.position d1)
    /\ Vector3.x (Droplet3D.velocity d') = Vector3.x (Droplet3D.velocity d1)
    /\ Vector3.z (Droplet3D.velocity d') = Vector3.z (Droplet3D.velocity d1).
Proof.
  intros deltaTime gravity airResistance sY sVy time d d1 d'. subst d'.
  unfold Droplet3D.update. fold d1.
  destruct (finish_frame (Droplet3D.collide sY sVy time d1)) as (Hp & Hv & _).
  destruct (collide_frame sY sVy time d1) as (_ & _ & _ & _ & Hpx & Hpz & Hvx & Hvz).
  rewrite Hp, Hv. repeat split; assumption.
Qed.

(** X4.  A droplet that, after the integration step, has not reached the
    surface, or does not move down relative to it, goes through the update
    untouched by the collision handling: its position and velocity are those
    of the integration step, and it dies only of having been dead or of the
    floor. *)
Theorem update_without_impact :
  forall (deltaTime gravity airResistance sY sVy time : R) (d : Droplet3D.t),
    let d1 := Droplet3D.integrate deltaTime gravity airResistance d in
    let d' := Droplet3D.update deltaTime gravity airResistance sY sVy time d in
    ~ Vector3.y (Droplet3D.position d1) - Droplet3D.radius d1 <= sY
    \/ Droplet3D.relativeVelY d1 sVy >= 0 ->
    Droplet3D.position d' = Droplet3D.position d1
    /\ Droplet3D.velocity d' = Droplet3D.velocity d1
    /\ (Droplet3D.isDead d' = true <->
        Droplet3D.isDead d = true \/ Vector3.y (Droplet3D.position d1) < -50).
Proof.
  intros deltaTime gravity airResistance sY sVy time d d1 d' H. subst d'.
  unfold Droplet3D.update. fold d1.
  rewrite (collide_no_impact sY sVy time d1 H).
  destruct (finish_frame d1) as (Hp & Hv & _).
  rewrite Hp, Hv. split; [reflexivity |]. split; [reflexivity |].
  rewrite finish_isDead. reflexivity.
Qed.

Lemma update_without_impact_witness :
  let d' := Droplet3D.update 0.016 9.8 0.02 0 0 0 (droplet_at 40 0) in
  Droplet3D.velocity d'
  = Droplet3D.velocity (Droplet3D.integrate 0.016 9.8 0.02 (droplet_at 40 0)).
Proof.
  apply (update_without_impact 0.016 9.8 0.02 0 0 0 (droplet_at 40 0)).
  left. rewrite integrate_no_drag by (unfold Vector3.lengthSq; cbn; lra).
  cbn. lra.
Defined.

(** X5.  Free fall: a droplet of non-zero mass, too slow for the drag to
    apply, gains [-gravity * deltaTime] of vertical velocity whatever its
    mass, keeps its horizontal velocity, and moves by the new velocity times
    [deltaTime * 10]. *)
Theorem integrate_free_fall :
  forall (deltaTime gravity airResistance : R) (d : Droplet3D.t),
    Droplet3D.mass d <> 0 ->
    ~ Vector3.lengthSq (Droplet3D.velocity d) > 0.0001 ->
    let d1 := Droplet3D.integrate deltaTime gravity airResistance d in
    let v := Droplet3D.velocity d in
    let v1 := Droplet3D.velocity d1 in
    v1 = Vector3.mk (Vector3.x v) (Vector3.y v - gravity * deltaTime) (Vector3.z v)
    /\ Droplet3D.position d1
       = Vector3.add (Droplet3D.position d) (Vector3.multiplyScalar v1 (deltaTime * 10)).
Proof.
  intros deltaTime gravity airResistance d Hm Hslow d1 v v1.
  subst v1 d1. rewrite integrate_no_drag by exact Hslow. cbn. split; [| reflexivity].
  unfold Vector3.add, Vector3.multiplyScalar. cbn. fold v.
  f_equal; field; exact Hm.
Qed.

Lemma integrate_free_fall_witness :
  Droplet3D.velocity (Droplet3D.integrate 0.016 9.8 0.02 (droplet_at 40 0))
  = Vector3.mk 0 (0 - 9.8 * 0.016) 0.
Proof.
  apply (integrate_free_fall 0.016 9.8 0.02 (droplet_at 40 0)).
  - cbn. lra.
  - unfold Vector3.lengthSq. cbn. lra.
Defined.

(** X6.  Drag: for a droplet of non-zero mass moving fast enough for the
    drag to apply, the integration step adds to each component of the
    velocity the drag acceleration [- airResistance * speed * component /
    mass] times [deltaTime], opposite to the motion, and gravity on the
    vertical one. *)
Theorem integrate_with_drag :
  forall (deltaTime gravity airResistance : R) (d : Droplet3D.t),
    Droplet3D.mass d <> 0 ->
    Vector3.lengthSq (Droplet3D.velocity d) > 0.0001 ->
    let v := Droplet3D.velocity d in
    let speed := Vector3.length v in
    let m := Droplet3D.mass d in
    Droplet3D.velocity (Droplet3D.integrate deltaTime gravity airResistance d)
    = Vector3.mk
        (Vector3.x v - airResistance * speed * Vector3.x v / m * deltaTime)
        (Vector3.y v - (gravity + airResistance * speed * Vector3.y v / m) * deltaTime)
        (Vector3.z v - airResistance * speed * Vector3.z v / m * deltaTime).
Proof.
  intros deltaTime gravity airResistance d Hm Hfast v speed m.
  assert (Hpos : 0 < Vector3.lengthSq v) by (unfold v; lra).
  assert (Hsp : 0 < speed) by (apply sqrt_lt_R0; exact Hpos).
  assert (Hsq : Vector3.lengthSq v = speed * speed)
    by (symmetry; apply sqrt_sqrt; lra).
  unfold Droplet3D.integrate.
  destruct (Rgt_dec _ 0.0001) as [_ | n]; [| contradiction].
  unfold Vector3.normalize. fold v. fold speed.
  destruct (Req_dec_T speed 0) as [e | _]; [lra |].
  cbn. fold v. fold m. rewrite Hsq.
  unfold Vector3.add, Vector3.multiplyScalar, Vector3.divideScalar, Vector3.negate,
    Vector3.multiplyScalar. cbn.
  f_equal; field; (split; [exact Hm | lra]) || lra || exact Hm.
Qed.

Lemma integrate_with_drag_witness :
  Vector3.x (Droplet3D.velocity (Droplet3D.integrate 0.016 9.8 0.02 (droplet_at 10 (-10))))
  = 0.
Proof.
  rewrite (integrate_with_drag 0.016 9.8 0.02 (droplet_at 10 (-10))).
  - cbn. lra.
  - cbn. lra.
  - unfold Vector3.lengthSq. cbn. lra.
Defined.

(** * Further properties of the wave field *)

Lemma Rabs_cos_le_1 (x : R) : Rabs (cos x) <= 1.
Proof. apply Rabs_le. apply COS_bound. Qed.

Lemma Rabs_sin_le_1 (x : R) : Rabs (sin x) <= 1.
Proof. apply Rabs_le. apply SIN_bound. Qed.

Lemma Rabs_mult_le_l (a b : R) : Rabs b <= 1 -> Rabs (a * b) <= Rabs a.
Proof.
  intros H. rewrite Rabs_mult. pose proof (Rabs_pos a). nra.
Qed.

(** X7.  The surface never rises above the amplitude: the wave height is
    within [|amp|] of zero and the surface velocity within
    [|amp * freq * 0.1|], everywhere and always. *)
Theorem wave_bounded_by_amplitude :
  forall (this : SimulatorAdvanced.t) (x z t : R),
    Rabs (SimulatorAdvanced.getWaveHeight this x z t) <= Rabs (SimulatorAdvanced.amp this)
    /\ Rabs (SimulatorAdvanced.getSurfaceVelY this x z t)
       <= Rabs (SimulatorAdvanced.amp this * (SimulatorAdvanced.freq this * 0.1)).
Proof.
  intros this x z t.
  unfold SimulatorAdvanced.getWaveHeight, SimulatorAdvanced.getSurfaceVelY. split.
  - eapply Rle_trans; [apply Rabs_mult_le_l, Rabs_cos_le_1 |].
    eapply Rle_trans; [apply Rabs_mult_le_l, Rabs_cos_le_1 |].
    apply Rabs_mult_le_l, Rabs_cos_le_1.
  - eapply Rle_trans; [apply Rabs_mult_le_l, Rabs_sin_le_1 |].
    eapply Rle_trans; [apply Rabs_mult_le_l, Rabs_cos_le_1 |].
    eapply Rle_trans; [apply Rabs_mult_le_l, Rabs_cos_le_1 |].
    rewrite <- Ropp_mult_distr_l, Rabs_Ropp. apply Rle_refl.
Qed.

(** X8.  The surface is periodic: in time with period [2 PI / (freq * 0.1)]
    when the frequency is not zero, and in [x] and in [z] with period
    [10 PI]. *)
Theorem wave_periodic :
  forall (this : SimulatorAdvanced.t) (x z t : R),
    (SimulatorAdvanced.freq this <> 0 ->
     let T := 2 * PI / (SimulatorAdvanced.freq this * 0.1) in
     SimulatorAdvanced.getWaveHeight this x z (t + T)
       = SimulatorAdvanced.getWaveHeight this x z t
     /\ SimulatorAdvanced.getSurfaceVelY this x z (t + T)
        = SimulatorAdvanced.getSurfaceVelY this x z t)
    /\ SimulatorAdvanced.getWaveHeight this (x + 10 * PI) z t
       = SimulatorAdvanced.getWaveHeight this x z t
    /\ SimulatorAdvanced.getWaveHeight this x (z + 10 * PI) t
       = SimulatorAdvanced.getWaveHeight this x z t.
Proof.
  intros this x z t.
  unfold SimulatorAdvanced.getWaveHeight, SimulatorAdvanced.getSurfaceVelY.
  split; [| split].
  - intros Hf.
    replace (SimulatorAdvanced.freq this * 0.1 *
             (t + 2 * PI / (SimulatorAdvanced.freq this * 0.1)))
      with (SimulatorAdvanced.freq this * 0.1 * t + 2 * PI)
      by (field; split; [lra | exact Hf]).
    rewrite cos_plus, sin_plus, cos_2PI, sin_2PI. split; ring.
  - replace (0.2 * (x + 10 * PI)) with (0.2 * x + 2 * PI) by lra.
    rewrite cos_plus, cos_2PI, sin_2PI. ring.
  - replace (0.2 * (z + 10 * PI)) with (0.2 * z + 2 * PI) by lra.
    rewrite cos_plus, cos_2PI, sin_2PI. ring.
Qed.

Lemma wave_periodic_witness :
  SimulatorAdvanced.getWaveHeight sim0 1 2 (3 + 2 * PI / (30 * 0.1))
  = SimulatorAdvanced.getWaveHeight sim0 1 2 3.
Proof.
  apply (proj1 (wave_periodic sim0 1 2 3)).
  change (30 <> 0). lra.
Defined.

(** * Further properties of the simulator *)

(** ** Commands *)

(** X9.  [spawnDroplet] adds one droplet at the end of the collection and
    leaves the others, the history and the time alone.  The new droplet is
    alive, at rest, at height 40, with the configured mass and a radius of
    a tenth of the configured size; with draws in [[0, 1)] its [x] and [z]
    lie in [[-20, 20)]. *)
Theorem spawnDroplet_adds_one :
  forall (r1 r2 : R) (this : SimulatorAdvanced.t),
    0 <= r1 < 1 -> 0 <= r2 < 1 ->
    exists d : Droplet3D.t,
      SimulatorAdvanced.droplets (SimulatorAdvanced.spawnDroplet r1 r2 this)
        = SimulatorAdvanced.droplets this ++ [d]
      /\ SimulatorAdvanced.history (SimulatorAdvanced.spawnDroplet r1 r2 this)
         = SimulatorAdvanced.history this
      /\ SimulatorAdvanced.time (SimulatorAdvanced.spawnDroplet r1 r2 this)
         = SimulatorAdvanced.time this
      /\ Droplet3D.isDead d = false
      /\ Droplet3D.velocity d = Vector3.mk 0 0 0
      /\ Vector3.y (Droplet3D.position d) = 40
      /\ -20 <= Vector3.x (Droplet3D.position d) < 20
      /\ -20 <= Vector3.z (Droplet3D.position d) < 20
      /\ Droplet3D.mass d = SimulatorAdvanced.mass this
      /\ Droplet3D.radius d = SimulatorAdvanced.dropletSize this * 0.1
      /\ Droplet3D.mesh d = mkMesh (Droplet3D.position d) true.
Proof.
  intros r1 r2 this H1 H2.
  exists (Droplet3D.new ((r1 - 0.5) * 40) 40 ((r2 - 0.5) * 40)
                        (SimulatorAdvanced.mass this)
                        (SimulatorAdvanced.dropletSize this)).
  cbn. repeat split; lra.
Qed.

Lemma spawnDroplet_adds_one_witness :
  length (SimulatorAdvanced.droplets (SimulatorAdvanced.spawnDroplet 0.25 0.75 sim2))
  = 2%nat.
Proof.
  assert (H1 : 0 <= 0.25 < 1) by lra.
  assert (H2 : 0 <= 0.75 < 1) by lra.
  destruct (spawnDroplet_adds_one 0.25 0.75 sim2 H1 H2) as (d & Hd & _).
  rewrite Hd, length_app. reflexivity.
Defined.

(** X10.  [reset] empties the droplets and the history, puts the time back
    to 0, and leaves the simulator neither running nor replaying, with rain
    mode off, whatever it was before; the configuration is kept; and a
    second [reset] changes nothing more. *)
Theorem reset_clears_state :
  forall this : SimulatorAdvanced.t,
    let this' := SimulatorAdvanced.reset this in
    SimulatorAdvanced.droplets this' = []
    /\ SimulatorAdvanced.history this' = []
    /\ SimulatorAdvanced.time this' = 0
    /\ SimulatorAdvanced.isRunning this' = false
    /\ SimulatorAdvanced.isReplaying this' = false
    /\ SimulatorAdvanced.rainMode this' = false
    /\ (forall target : SliderTarget,
          SimulatorAdvanced.get_target target this'
            = SimulatorAdvanced.get_target target this)
    /\ SimulatorAdvanced.reset this' = this'.
Proof.
  intros [ds run t rain g m c size f a h rep cur mx pool water]. cbn.
  unfold SimulatorAdvanced.reset, SimulatorAdvanced.toggleRain. cbn.
  destruct rain; cbn; repeat split; intros target; destruct target; reflexivity.
Qed.

(** X11.  Two clicks on the rain button put rain mode back where it was,
    and leave the simulator running: the two clicks together do exactly
    what setting [isRunning] does. *)
Theorem toggleRain_twice :
  forall this : SimulatorAdvanced.t,
    SimulatorAdvanced.toggleRain (SimulatorAdvanced.toggleRain this)
    = SimulatorAdvanced.set_isRunning true this.
Proof.
  intros [ds run t rain g m c size f a h rep cur mx pool water].
  unfold SimulatorAdvanced.toggleRain. cbn. destruct rain; reflexivity.
Qed.

Section Entering.

Import SimulatorAdvanced.

Lemma array_get_last {A : Type} (a : list A) (x : A) :
  array_get (a ++ [x]) (JInt (Z.of_nat (length (a ++ [x])) - 1)) = Some x.
Proof.
  cbn. rewrite length_app. cbn.
  destruct (_ <? 0)%Z eqn:E; [apply Z.ltb_lt in E; lia |].
  replace (Z.to_nat (Z.of_nat (length a + 1) - 1)) with (length a) by lia.
  rewrite nth_error_app2 by lia. rewrite Nat.sub_diag. reflexivity.
Qed.

End Entering.

(** X12.  Entering Replay puts the cursor on the most recent frame, the
    last of the history; with an empty history the cursor is -1 and reads
    no frame. *)
Theorem startReplay_cursor_on_last_frame :
  forall this : SimulatorAdvanced.t,
    SimulatorAdvanced.isReplaying this = false ->
    let this' := SimulatorAdvanced.startReplay this in
    (forall (older : list Frame.t) (newest : Frame.t),
        SimulatorAdvanced.history this = older ++ [newest] ->
        array_get (SimulatorAdvanced.history this')
                  (SimulatorAdvanced.replayFrame this') = Some newest)
    /\ (SimulatorAdvanced.history this = [] ->
        SimulatorAdvanced.replayFrame this' = JInt (-1)
        /\ array_get (SimulatorAdvanced.history this')
                     (SimulatorAdvanced.replayFrame this') = None).
Proof.
  intros this Hlive this'. subst this'.
  unfold SimulatorAdvanced.startReplay. cbn. rewrite Hlive. cbn. split.
  - intros older newest Hh. rewrite Hh. apply array_get_last.
  - intros Hh. rewrite Hh. split; reflexivity.
Qed.

Lemma startReplay_cursor_on_last_frame_witness :
  exists frame,
    array_get (SimulatorAdvanced.history (SimulatorAdvanced.startReplay sim2))
              (SimulatorAdvanced.replayFrame (SimulatorAdvanced.startReplay sim2))
    = Some frame.
Proof.
  assert (Hlive : SimulatorAdvanced.isReplaying sim2 = false) by reflexivity.
  destruct (startReplay_cursor_on_last_frame sim2 Hlive) as (Hlast & _).
  eexists. eapply Hlast. reflexivity.
Defined.

Section Ticks.

Import SimulatorAdvanced.

Lemma renderReplay_isRunning (this : t) :
  isRunning (renderReplay this) = isRunning this.
Proof.
  unfold renderReplay.
  destruct (array_get (history this) (replayFrame this)); reflexivity.
Qed.

Lemma replayStep_paused (this : t) (a : ReplayAction) :
  isReplaying this = true /\ isRunning this = false ->
  isReplaying (replayStep this a) = true /\ isRunning (replayStep this a) = false.
Proof.
  intros (Hr & Hrun). destruct a as [value | | r1 r2]; cbn.
  - unfold replaySlider. rewrite Hr. cbn. split; assumption.
  - rewrite (animate_replaying _ Hr), renderReplay_isRunning.
    destruct (renderReplay_frame this) as (_ & _ & Hr' & _).
    rewrite Hr'. split; assumption.
  - destruct (rainMode this); split; assumption.
Qed.

Lemma fold_replayStep_paused (actions : list ReplayAction) (this : t) :
  isReplaying this = true /\ isRunning this = false ->
  isReplaying (fold_left replayStep actions this) = true
  /\ isRunning (fold_left replayStep actions this) = false.
Proof.
  revert this. induction actions as [| a actions IH]; intros this H; cbn.
  - exact H.
  - apply IH. apply replayStep_paused. exact H.
Qed.

Lemma recordFrame_frame (this : t) :
  droplets (recordFrame this) = droplets this
  /\ time (recordFrame this) = time this
  /\ replayPool (recordFrame this) = replayPool this
  /\ waterMesh (recordFrame this) = waterMesh this
  /\ replayFrame (recordFrame this) = replayFrame this
  /\ dropletSize (recordFrame this) = dropletSize this.
Proof.
  unfold recordFrame. destruct (MAX_HISTORY this <? _)%nat; repeat split.
Qed.

Lemma recordFrame_history_eq (this : t) :
  history (recordFrame this) =
  (if (MAX_HISTORY this <? length (history this))%nat
   then tl (history this) else history this)
  ++ [Frame.mk (map Snapshot.of_droplet (droplets this)) (time this)].
Proof.
  unfold recordFrame.
  destruct (MAX_HISTORY this <? length (history this))%nat; reflexivity.
Qed.

(** The state a live tick computes before the replay pool is hidden. *)
Lemma animate_live_fields (this : t) :
  isReplaying this = false -> isRunning this = true ->
  let now := time this + dt * (freq this / 30) in
  let ticked :=
    recordFrame (stepDroplets (updateWaterSurface now (set_time now this))) in
  droplets (animate this) = droplets ticked
  /\ time (animate this) = now
  /\ history (animate this) = history ticked
  /\ waterMesh (animate this) = waterMesh ticked
  /\ replayPool (animate this) = option_map (map (set_visible false)) (replayPool this).
Proof.
  intros Hr Hrun now ticked.
  assert (Hr1 : isReplaying ticked = false).
  { unfold ticked. rewrite (proj1 (recordFrame_flags _)). exact Hr. }
  assert (Hpool : replayPool ticked = replayPool this).
  { unfold ticked. destruct (recordFrame_frame
      (stepDroplets (updateWaterSurface now (set_time now this))))
      as (_ & _ & Hp & _). rewrite Hp. reflexivity. }
  assert (Ht : time ticked = now).
  { unfold ticked. destruct (recordFrame_frame
      (stepDroplets (updateWaterSurface now (set_time now this))))
      as (_ & Ht & _). rewrite Ht. reflexivity. }
  unfold animate. rewrite Hr, Hrun.
  change (recordFrame _) with ticked.
  rewrite Hr1. simpl negb. cbv iota. rewrite <- Hpool.
  destruct (replayPool ticked) eqn:Ep; cbn [option_map];
    unfold set_replayPool; cbn [droplets time history waterMesh replayPool];
    repeat split; try exact Ht; try exact Ep.
Qed.

Lemma stepDroplet_frame (this : t) (d : Droplet3D.t) :
  Droplet3D.radius (stepDroplet this d) = Droplet3D.radius d
  /\ visible (Droplet3D.mesh (stepDroplet this d)) = true.
Proof.
  unfold stepDroplet, Droplet3D.update.
  set (d0 := Droplet3D.set_mesh d _).
  set (sY := getWaveHeight _ _ _ _). set (sVy := getSurfaceVelY _ _ _ _).
  set (d1 := Droplet3D.integrate _ _ _ d0).
  destruct (finish_frame (Droplet3D.collide sY sVy (time this) d1))
    as (_ & _ & _ & Hr & _ & Hv & _).
  destruct (collide_frame sY sVy (time this) d1) as (_ & Hr2 & Hm2 & _).
  rewrite Hr, Hv, Hr2, Hm2. split; reflexivity.
Qed.

End Ticks.

(** X13.  During a stay in Replay the simulation is paused, and leaving
    Replay sets it running, even when it was paused before Replay was
    entered. *)
Theorem replay_exit_resumes_running :
  forall (actions : list SimulatorAdvanced.ReplayAction) (this : SimulatorAdvanced.t),
    SimulatorAdvanced.isReplaying this = false ->
    SimulatorAdvanced.isRunning (SimulatorAdvanced.duringReplay actions this) = false
    /\ SimulatorAdvanced.isRunning (SimulatorAdvanced.replaySession actions this) = true.
Proof.
  intros actions this Hlive.
  assert (H : SimulatorAdvanced.isReplaying (SimulatorAdvanced.duringReplay actions this)
              = true
              /\ SimulatorAdvanced.isRunning (SimulatorAdvanced.duringReplay actions this)
                 = false).
  { apply fold_replayStep_paused.
    unfold SimulatorAdvanced.startReplay. cbn. rewrite Hlive. cbn. split; reflexivity. }
  destruct H as (Hr & Hrun). split; [exact Hrun |].
  unfold SimulatorAdvanced.replaySession, SimulatorAdvanced.startReplay.
  cbn. rewrite Hr. reflexivity.
Qed.

Lemma replay_exit_resumes_running_witness :
  SimulatorAdvanced.isRunning (SimulatorAdvanced.pauseBtn sim2) = false
  /\ SimulatorAdvanced.isRunning
       (SimulatorAdvanced.replaySession
          [SimulatorAdvanced.AnimationFrame] (SimulatorAdvanced.pauseBtn sim2)) = true.
Proof.
  split; [reflexivity |].
  assert (Hlive : SimulatorAdvanced.isReplaying (SimulatorAdvanced.pauseBtn sim2) = false)
    by reflexivity.
  exact (proj2 (replay_exit_resumes_running
                  [SimulatorAdvanced.AnimationFrame]
                  (SimulatorAdvanced.pauseBtn sim2) Hlive)).
Defined.

(** X14.  [recordFrame] keeps the most recent frames in their order: on a
    buffer of at most [MAX_HISTORY + 1] frames, the history after the append
    is the last [MAX_HISTORY + 1] frames of the old history followed by the
    new frame. *)
Theorem recordFrame_keeps_most_recent :
  forall this : SimulatorAdvanced.t,
    (length (SimulatorAdvanced.history this) <= SimulatorAdvanced.MAX_HISTORY this + 1)%nat ->
    let frame := Frame.mk (map Snapshot.of_droplet (SimulatorAdvanced.droplets this))
                          (SimulatorAdvanced.time this) in
    let all := SimulatorAdvanced.history this ++ [frame] in
    SimulatorAdvanced.history (SimulatorAdvanced.recordFrame this)
    = skipn (length all - (SimulatorAdvanced.MAX_HISTORY this + 1)) all.
Proof.
  intros this Hb frame all. subst all.
  rewrite recordFrame_history_eq. fold frame. rewrite length_app. cbn [length].
  destruct (SimulatorAdvanced.MAX_HISTORY this <? _)%nat eqn:E.
  - apply Nat.ltb_lt in E.
    replace (length (SimulatorAdvanced.history this) + 1
             - (SimulatorAdvanced.MAX_HISTORY this + 1))%nat with 1%nat by lia.
    destruct (SimulatorAdvanced.history this) as [| f h]; [cbn in E; lia |].
    reflexivity.
  - apply Nat.ltb_ge in E.
    replace (length (SimulatorAdvanced.history this) + 1
             - (SimulatorAdvanced.MAX_HISTORY this + 1))%nat with 0%nat by lia.
    reflexivity.
Qed.

Lemma recordFrame_keeps_most_recent_witness :
  length (SimulatorAdvanced.history (SimulatorAdvanced.recordFrame sim2)) = 3%nat.
Proof.
  assert (Hb : (length (SimulatorAdvanced.history sim2)
                <= SimulatorAdvanced.MAX_HISTORY sim2 + 1)%nat).
  { change (2 <= 1200 + 1)%nat. lia. }
  rewrite (recordFrame_keeps_most_recent sim2 Hb).
  reflexivity.
Defined.

(** ** Animation frames *)

(** X15.  A live tick advances the time by [dt * freq / 30], leaves no dead
    droplet in the collection and never adds one to it; every droplet left
    is visible, and every mesh of the replay pool is hidden. *)
Theorem live_tick_droplets :
  forall this : SimulatorAdvanced.t,
    SimulatorAdvanced.isReplaying this = false ->
    SimulatorAdvanced.isRunning this = true ->
    let this' := SimulatorAdvanced.animate this in
    SimulatorAdvanced.time this'
      = SimulatorAdvanced.time this
        + SimulatorAdvanced.dt * (SimulatorAdvanced.freq this / 30)
    /\ Forall (fun d => Droplet3D.isDead d = false
                       /\ visible (Droplet3D.mesh d) = true)
              (SimulatorAdvanced.droplets this')
    /\ (length (SimulatorAdvanced.droplets this')
        <= length (SimulatorAdvanced.droplets this))%nat
    /\ (forall pool, SimulatorAdvanced.replayPool this' = Some pool ->
          Forall (fun m => visible m = false) pool).
Proof.
  intros this Hr Hrun this'. subst this'.
  destruct (animate_live_fields this Hr Hrun) as (Hd & Ht & _ & _ & Hp).
  rewrite Hd, Ht, Hp.
  rewrite (proj1 (recordFrame_frame _)).
  unfold SimulatorAdvanced.stepDroplets. cbn [SimulatorAdvanced.droplets
    SimulatorAdvanced.set_droplets SimulatorAdvanced.updateWaterSurface
    SimulatorAdvanced.set_waterMesh SimulatorAdvanced.set_time].
  split; [reflexivity |]. split; [| split].
  - apply Forall_forall. intros d Hin.
    apply filter_In in Hin. destruct Hin as (Hin & Halive).
    apply in_map_iff in Hin. destruct Hin as (d0 & <- & _).
    split; [apply negb_true_iff; exact Halive | apply stepDroplet_frame].
  - eapply Nat.le_trans; [apply filter_length_le |].
    rewrite length_map. apply Nat.le_refl.
  - intros pool Hpool.
    destruct (SimulatorAdvanced.replayPool this) as [pool0 |]; [| discriminate].
    cbn in Hpool. injection Hpool as <-.
    apply Forall_forall. intros m Hin.
    apply in_map_iff in Hin. destruct Hin as (m0 & <- & _). reflexivity.
Qed.

Lemma live_tick_droplets_witness :
  SimulatorAdvanced.time (SimulatorAdvanced.animate sim2)
  = SimulatorAdvanced.time sim2 + SimulatorAdvanced.dt * (SimulatorAdvanced.freq sim2 / 30).
Proof.
  apply (live_tick_droplets sim2); reflexivity.
Defined.

(** X16.  A live tick appends one frame at the end of the history, after
    dropping the oldest frame when the buffer holds more than [MAX_HISTORY]
    frames.  The new frame carries the time after the tick and one entry for
    each droplet left after the tick, in order, none of them flagged dead. *)
Theorem live_tick_records_frame :
  forall this : SimulatorAdvanced.t,
    SimulatorAdvanced.isReplaying this = false ->
    SimulatorAdvanced.isRunning this = true ->
    let this' := SimulatorAdvanced.animate this in
    exists frame : Frame.t,
      SimulatorAdvanced.history this'
      = (if (SimulatorAdvanced.MAX_HISTORY this
             <? length (SimulatorAdvanced.history this))%nat
         then tl (SimulatorAdvanced.history this)
         else SimulatorAdvanced.history this) ++ [frame]
      /\ Frame.waterTime frame = SimulatorAdvanced.time this'
      /\ Frame.droplets frame
         = map Snapshot.of_droplet (SimulatorAdvanced.droplets this')
      /\ Forall (fun sn => Snapshot.dead sn = false) (Frame.droplets frame).
Proof.
  intros this Hr Hrun this'. subst this'.
  destruct (animate_live_fields this Hr Hrun) as (Hd & Ht & Hh & _).
  set (now := SimulatorAdvanced.time this
              + SimulatorAdvanced.dt * (SimulatorAdvanced.freq this / 30)) in *.
  set (stepped := SimulatorAdvanced.stepDroplets
                    (SimulatorAdvanced.updateWaterSurface now
                       (SimulatorAdvanced.set_time now this))) in *.
  exists (Frame.mk (map Snapshot.of_droplet (SimulatorAdvanced.droplets stepped))
                   (SimulatorAdvanced.time stepped)).
  rewrite Hh, Hd, Ht, recordFrame_history_eq, (proj1 (recordFrame_frame stepped)).
  cbn [Frame.waterTime Frame.droplets].
  split; [reflexivity |]. split; [reflexivity |]. split; [reflexivity |].
  apply Forall_forall. intros sn Hin.
  apply in_map_iff in Hin. destruct Hin as (d & <- & Hin).
  unfold stepped, SimulatorAdvanced.stepDroplets in Hin.
  cbn [SimulatorAdvanced.droplets SimulatorAdvanced.set_droplets] in Hin.
  apply filter_In in Hin. destruct Hin as (_ & Halive).
  cbn. apply negb_true_iff. exact Halive.
Qed.

Lemma live_tick_records_frame_witness :
  exists frame : Frame.t,
    SimulatorAdvanced.history (SimulatorAdvanced.animate sim2)
    = SimulatorAdvanced.history sim2 ++ [frame].
Proof.
  assert (Hr : SimulatorAdvanced.isReplaying sim2 = false) by reflexivity.
  assert (Hrun : SimulatorAdvanced.isRunning sim2 = true) by reflexivity.
  destruct (live_tick_records_frame sim2 Hr Hrun) as (frame & Hh & _).
  exists frame. exact Hh.
Defined.

(** X17.  An animation frame of a paused simulator, outside Replay, leaves
    the droplets, the time, the history and the water surface as they are;
    it only hides the replay pool, and a second one changes nothing more. *)
Theorem paused_tick_changes_nothing :
  forall this : SimulatorAdvanced.t,
    SimulatorAdvanced.isReplaying this = false ->
    SimulatorAdvanced.isRunning this = false ->
    let this' := SimulatorAdvanced.animate this in
    this' = SimulatorAdvanced.set_replayPool
              (option_map (map (set_visible false)) (SimulatorAdvanced.replayPool this))
              this
    /\ SimulatorAdvanced.droplets this' = SimulatorAdvanced.droplets this
    /\ SimulatorAdvanced.time this' = SimulatorAdvanced.time this
    /\ SimulatorAdvanced.history this' = SimulatorAdvanced.history this
    /\ SimulatorAdvanced.waterMesh this' = SimulatorAdvanced.waterMesh this
    /\ SimulatorAdvanced.animate this' = this'.
Proof.
  intros [ds run t rain g m c size f a h rep cur mx pool water] Hr Hrun.
  cbn in Hr, Hrun. subst rep run.
  unfold SimulatorAdvanced.animate. cbn.
  destruct pool as [pool |]; cbn; repeat split.
  unfold SimulatorAdvanced.set_replayPool. cbn.
  rewrite map_map. do 2 f_equal.
Qed.

Lemma paused_tick_changes_nothing_witness :
  SimulatorAdvanced.history (SimulatorAdvanced.animate (SimulatorAdvanced.pauseBtn sim2))
  = SimulatorAdvanced.history (SimulatorAdvanced.pauseBtn sim2).
Proof.
  apply (paused_tick_changes_nothing (SimulatorAdvanced.pauseBtn sim2)); reflexivity.
Defined.

(** ** Rendering a replay frame *)

Section Rendering.

Import SimulatorAdvanced.

Lemma ensurePool_length (n : nat) (pool : list Mesh) :
  (n <= length (ensurePool n pool))%nat.
Proof.
  unfold ensurePool. rewrite length_app, repeat_length. lia.
Qed.

Lemma skipn_ensurePool (n : nat) (pool : list Mesh) :
  skipn n (ensurePool n pool) = skipn n pool.
Proof.
  unfold ensurePool. rewrite skipn_app.
  destruct (Nat.le_gt_cases (length pool) n) as [Hle | Hgt].
  - rewrite (skipn_all2 pool) by exact Hle.
    rewrite skipn_all2 by (rewrite repeat_length; lia). reflexivity.
  - replace (n - length pool)%nat with 0%nat by lia. cbn.
    apply app_nil_r.
Qed.

(** Once the pool is long enough, its first meshes show the frame and the
    others are left as they were. *)
Lemma showFrame_spec (ds : list Snapshot.t) (pool : list Mesh) :
  (length ds <= length pool)%nat ->
  showFrame ds pool
  = map (fun dData => mkMesh (Snapshot.pos dData) true) ds ++ skipn (length ds) pool.
Proof.
  revert pool. induction ds as [| dData ds IH]; intros pool Hle; cbn.
  - destruct pool; reflexivity.
  - destruct pool as [| m pool]; [cbn in Hle; lia |].
    cbn in Hle. rewrite IH by lia. reflexivity.
Qed.

(** The pool [renderReplay] leaves when it finds [frame]. *)
Lemma rendered_pool (ds : list Snapshot.t) (pool : list Mesh) :
  showFrame ds (map (set_visible false) (ensurePool (length ds) pool))
  = map (fun dData => mkMesh (Snapshot.pos dData) true) ds
    ++ map (set_visible false) (skipn (length ds) pool).
Proof.
  rewrite showFrame_spec by (rewrite length_map; apply ensurePool_length).
  rewrite skipn_map, skipn_ensurePool. reflexivity.
Qed.

Lemma renderReplay_found (this : t) (frame : Frame.t) :
  array_get (history this) (replayFrame this) = Some frame ->
  renderReplay this
  = set_replayPool
      (Some (map (fun dData => mkMesh (Snapshot.pos dData) true) (Frame.droplets frame)
             ++ map (set_visible false)
                    (skipn (length (Frame.droplets frame))
                           (match replayPool this with Some p => p | None => [] end))))
      (set_droplets
         (map (fun d => Droplet3D.set_mesh d (set_visible false (Droplet3D.mesh d)))
              (droplets this))
         (updateWaterSurface (Frame.waterTime frame) this)).
Proof.
  intros Hf. unfold renderReplay. rewrite Hf.
  cbn [replayPool set_droplets updateWaterSurface set_waterMesh droplets].
  rewrite rendered_pool. reflexivity.
Qed.

End Rendering.

(** X18.  When the cursor reads a frame, [renderReplay] hides every live
    droplet and shows the frame on the replay pool: the first meshes of the
    pool, one for each droplet of the frame, are visible and placed where
    the frame says; the meshes the pool had beyond those are hidden; so the
    visible meshes of the pool are exactly as many as the droplets of the
    frame.  The water surface is the wave at the frame's time. *)
Theorem renderReplay_shows_frame :
  forall (this : SimulatorAdvanced.t) (frame : Frame.t),
    array_get (SimulatorAdvanced.history this) (SimulatorAdvanced.replayFrame this)
    = Some frame ->
    let this' := SimulatorAdvanced.renderReplay this in
    let old := match SimulatorAdvanced.replayPool this with
               | Some p => p
               | None => []
               end in
    let shown := map (fun dData => mkMesh (Snapshot.pos dData) true)
                     (Frame.droplets frame) in
    let hidden := map (set_visible false)
                      (skipn (length (Frame.droplets frame)) old) in
    SimulatorAdvanced.replayPool this' = Some (shown ++ hidden)
    /\ length (filter visible (shown ++ hidden)) = length (Frame.droplets frame)
    /\ Forall (fun d => visible (Droplet3D.mesh d) = false)
              (SimulatorAdvanced.droplets this')
    /\ SimulatorAdvanced.waterMesh this'
       = map (fun p => Vector3.set_y p
                         (SimulatorAdvanced.getWaveHeight this (Vector3.x p) (Vector3.z p)
                                                          (Frame.waterTime frame)))
             (SimulatorAdvanced.waterMesh this).
Proof.
  intros this frame Hf this' old shown hidden. subst this'.
  rewrite (renderReplay_found this frame Hf). fold old. fold shown. fold hidden.
  cbn [SimulatorAdvanced.replayPool SimulatorAdvanced.set_replayPool
       SimulatorAdvanced.droplets SimulatorAdvanced.set_droplets
       SimulatorAdvanced.waterMesh SimulatorAdvanced.updateWaterSurface
       SimulatorAdvanced.set_waterMesh].
  split; [reflexivity |]. split; [| split; [| reflexivity]].
  - rewrite filter_app, length_app.
    assert (Hs : filter visible shown = shown).
    { unfold shown. induction (Frame.droplets frame) as [| sn l IH]; cbn;
        [reflexivity | rewrite IH; reflexivity]. }
    assert (Hh : filter visible hidden = []).
    { unfold hidden. induction (skipn _ old) as [| m l IH]; cbn;
        [reflexivity | exact IH]. }
    rewrite Hs, Hh. unfold shown. rewrite length_map. cbn. lia.
  - apply Forall_forall. intros d Hin.
    apply in_map_iff in Hin. destruct Hin as (d0 & <- & _). reflexivity.
Qed.

Lemma renderReplay_shows_frame_witness :
  exists pool,
    SimulatorAdvanced.replayPool
      (SimulatorAdvanced.renderReplay (SimulatorAdvanced.startReplay sim2)) = Some pool
    /\ length (filter visible pool) = 1%nat.
Proof.
  assert (Hf : exists frame,
             array_get (SimulatorAdvanced.history (SimulatorAdvanced.startReplay sim2))
                       (SimulatorAdvanced.replayFrame (SimulatorAdvanced.startReplay sim2))
             = Some frame
             /\ length (Frame.droplets frame) = 1%nat).
  { eexists. split; reflexivity. }
  destruct Hf as (frame & Hf & Hlen).
  destruct (renderReplay_shows_frame (SimulatorAdvanced.startReplay sim2) frame Hf)
    as (Hp & Hn & _).
  eexists. split; [exact Hp |]. rewrite Hn. exact Hlen.
Defined.

(** X19.  Rendering the same replay frame again changes nothing: after
    one [renderReplay], a second one returns the same simulator. *)
Theorem renderReplay_idempotent :
  forall this : SimulatorAdvanced.t,
    SimulatorAdvanced.renderReplay (SimulatorAdvanced.renderReplay this)
    = SimulatorAdvanced.renderReplay this.
Proof.
  intros this.
  destruct (array_get (SimulatorAdvanced.history this)
                      (SimulatorAdvanced.replayFrame this)) as [frame |] eqn:Hf.
  - rewrite (renderReplay_found this frame Hf).
    rewrite (renderReplay_found _ frame) by exact Hf.
    destruct this as [ds run t rain g m c size f a h rep cur mx pool water].
    cbv beta iota delta
      [SimulatorAdvanced.set_replayPool SimulatorAdvanced.set_droplets
       SimulatorAdvanced.updateWaterSurface SimulatorAdvanced.set_waterMesh
       SimulatorAdvanced.droplets SimulatorAdvanced.isRunning SimulatorAdvanced.time
       SimulatorAdvanced.rainMode SimulatorAdvanced.gravity SimulatorAdvanced.mass
       SimulatorAdvanced.airResistance SimulatorAdvanced.dropletSize
       SimulatorAdvanced.freq SimulatorAdvanced.amp SimulatorAdvanced.history
       SimulatorAdvanced.isReplaying SimulatorAdvanced.replayFrame
       SimulatorAdvanced.MAX_HISTORY SimulatorAdvanced.replayPool
       SimulatorAdvanced.waterMesh].
    f_equal.
    + rewrite map_map. apply map_ext. intros d. reflexivity.
    + f_equal. f_equal.
      rewrite skipn_app, length_map, Nat.sub_diag.
      rewrite skipn_all2 by (rewrite length_map; apply Nat.le_refl).
      cbn. rewrite map_map. apply map_ext. intros m'. reflexivity.
    + rewrite map_map. apply map_ext. intros p. reflexivity.
  - unfold SimulatorAdvanced.renderReplay at 2. rewrite Hf.
    unfold SimulatorAdvanced.renderReplay. rewrite Hf. reflexivity.
Qed.

(** ** What every reachable state satisfies *)

Section Reachable.

Import SimulatorAdvanced.

Lemma Forall_tl {A : Type} (P : A -> Prop) (l : list A) :
  Forall P l -> Forall P (tl l).
Proof.
  intros H. destruct l as [| x l]; [exact H |]. inversion H; assumption.
Qed.

Lemma renderReplay_config (this : t) :
  MAX_HISTORY (renderReplay this) = MAX_HISTORY this
  /\ dropletSize (renderReplay this) = dropletSize this
  /\ (droplets (renderReplay this) = droplets this
      \/ droplets (renderReplay this)
         = map (fun d => Droplet3D.set_mesh d (set_visible false (Droplet3D.mesh d)))
               (droplets this)).
Proof.
  unfold renderReplay.
  destruct (array_get (history this) (replayFrame this)).
  - repeat split. right. reflexivity.
  - repeat split. left. reflexivity.
Qed.

Lemma animate_paused (this : t) :
  isReplaying this = false -> isRunning this = false ->
  animate this
  = set_replayPool (option_map (map (set_visible false)) (replayPool this)) this.
Proof.
  destruct this as [ds run t rain g m c size f a h rep cur mx pool water].
  cbn. intros -> ->. unfold animate. cbn.
  destruct pool; reflexivity.
Qed.

Lemma stepped_droplets (this : t) :
  Forall (fun d => Droplet3D.isDead d = false /\ Droplet3D.radius d = 0.8)
         (droplets this) ->
  Forall (fun d => Droplet3D.isDead d = false /\ Droplet3D.radius d = 0.8)
         (droplets (stepDroplets this)).
Proof.
  intros H. unfold stepDroplets. cbn [droplets set_droplets].
  apply Forall_forall. intros d Hin.
  apply filter_In in Hin. destruct Hin as (Hin & Halive).
  apply in_map_iff in Hin. destruct Hin as (d0 & <- & Hin0).
  split; [apply negb_true_iff; exact Halive |].
  rewrite (proj1 (stepDroplet_frame this d0)).
  rewrite Forall_forall in H. apply (H d0 Hin0).
Qed.

Lemma animate_well_formed (this : t) :
  well_formed this -> well_formed (animate this).
Proof.
  intros (HM & Hlen & Hsize & Hds & Hfs).
  destruct (isReplaying this) eqn:Hr.
  - rewrite (animate_replaying this Hr).
    destruct (renderReplay_config this) as (HM' & Hsize' & Hd').
    destruct (renderReplay_frame this) as (Hh' & _).
    unfold well_formed. rewrite HM', Hsize', Hh'.
    repeat split; try assumption.
    destruct Hd' as [-> | ->]; [exact Hds |].
    apply Forall_forall. intros d Hin.
    apply in_map_iff in Hin. destruct Hin as (d0 & <- & Hin0).
    rewrite Forall_forall in Hds. apply (Hds d0 Hin0).
  - destruct (isRunning this) eqn:Hrun.
    + destruct (animate_live this Hr Hrun) as (_ & _ & HM' & Hlen').
      destruct (animate_live_fields this Hr Hrun) as (Hd' & _ & Hh' & _).
      set (now := time this + dt * (freq this / 30)) in *.
      set (stepped := stepDroplets (updateWaterSurface now (set_time now this))) in *.
      assert (Hstepped : Forall (fun d => Droplet3D.isDead d = false
                                          /\ Droplet3D.radius d = 0.8)
                                (droplets stepped))
        by (apply stepped_droplets; exact Hds).
      unfold well_formed. rewrite HM', Hlen', Hd', Hh'.
      rewrite (proj1 (recordFrame_frame stepped)), recordFrame_history_eq.
      split; [exact HM |]. split; [| split; [| split; [exact Hstepped |]]].
      * destruct (MAX_HISTORY this <? length (history this))%nat eqn:E;
          [exact Hlen | apply Nat.ltb_ge in E; lia].
      * rewrite <- Hsize.
        unfold animate. rewrite Hr, Hrun.
        change (recordFrame _) with (recordFrame stepped).
        rewrite (proj1 (recordFrame_flags stepped)).
        change (isReplaying stepped) with (isReplaying this). rewrite Hr.
        simpl negb. cbv iota.
        destruct (replayPool (recordFrame stepped));
          [unfold set_replayPool; cbn [dropletSize] |];
          apply (proj2 (proj2 (proj2 (proj2 (proj2 (recordFrame_frame stepped)))))).
      * apply Forall_app. split.
        -- change (MAX_HISTORY stepped) with (MAX_HISTORY this).
           change (history stepped) with (history this).
           destruct (MAX_HISTORY this <? _)%nat; [apply Forall_tl |]; exact Hfs.
        -- constructor; [| constructor]. cbn [Frame.droplets].
           apply Forall_forall. intros sn Hin.
           apply in_map_iff in Hin. destruct Hin as (d0 & <- & Hin0).
           rewrite Forall_forall in Hstepped. apply (Hstepped d0 Hin0).
    + rewrite (animate_paused this Hr Hrun).
      unfold well_formed, set_replayPool.
      cbn [MAX_HISTORY history dropletSize droplets].
      repeat split; assumption.
Qed.

Lemma handle_well_formed (this : t) (e : Event) :
  well_formed this -> well_formed (handle this e).
Proof.
  intros H. destruct e as [| | | r1 r2 | | target value | | value |];
    cbn [handle]; try (apply animate_well_formed; exact H);
    destruct this as [ds run t rain g m c size f a h rep cur mx pool water];
    destruct H as (HM & Hlen & Hsize & Hds & Hfs);
    cbn [MAX_HISTORY history dropletSize droplets] in HM, Hlen, Hsize, Hds, Hfs.
  - repeat split; assumption.
  - repeat split; assumption.
  - unfold reset, toggleRain. cbn.
    destruct rain; cbn; repeat split; try assumption; try constructor; cbn; lia.
  - unfold well_formed, spawnDroplet.
    cbn [MAX_HISTORY history dropletSize droplets set_droplets mass].
    repeat split; try assumption.
    apply Forall_app. split; [exact Hds |].
    constructor; [| constructor]. cbn. split; [reflexivity | lra].
  - unfold toggleRain. cbn. destruct rain; cbn; repeat split; assumption.
  - destruct target; repeat split; assumption.
  - unfold startReplay. cbn. destruct rep; cbn; repeat split; assumption.
  - unfold replaySlider. cbn. destruct rep; cbn; repeat split; assumption.
Qed.

Lemma run_well_formed (events : list Event) (this : t) :
  well_formed this -> well_formed (run events this).
Proof.
  unfold run. revert this.
  induction events as [| e events IH]; intros this H; cbn [fold_left].
  - exact H.
  - apply IH. apply handle_well_formed. exact H.
Qed.

End Reachable.

(** X20.  Whatever the user does from a new simulator, in any order (the
    buttons, the sliders, spawned droplets, animation frames), the history
    never holds more than 1201 frames, with [MAX_HISTORY] at 1200; no dead
    droplet stays in the live collection; every droplet, live or recorded in
    a frame, has radius 0.8; and no frame records a droplet as dead. *)
Theorem reachable_states_well_formed :
  forall (vertices : list Vector3.t) (events : list SimulatorAdvanced.Event),
    SimulatorAdvanced.well_formed
      (SimulatorAdvanced.run events (SimulatorAdvanced.new vertices)).
Proof.
  intros vertices events. apply run_well_formed.
  unfold SimulatorAdvanced.well_formed, SimulatorAdvanced.new.
  cbn [SimulatorAdvanced.MAX_HISTORY SimulatorAdvanced.history
       SimulatorAdvanced.dropletSize SimulatorAdvanced.droplets].
  repeat split; try constructor. cbn. lia.
Qed.

(** ** The water surface and long runs *)

Section Running.

Import SimulatorAdvanced.

Lemma getWaveHeight_bound (this : t) (x z time : R) :
  Rabs (getWaveHeight this x z time) <= Rabs (amp this).
Proof.
  unfold getWaveHeight.
  eapply Rle_trans; [apply Rabs_mult_le_l, Rabs_cos_le_1 |].
  eapply Rle_trans; [apply Rabs_mult_le_l, Rabs_cos_le_1 |].
  apply Rabs_mult_le_l, Rabs_cos_le_1.
Qed.

(** A live tick reads the configuration and does not write it. *)
Lemma animate_live_config (this : t) (target : SliderTarget) :
  isReplaying this = false -> isRunning this = true ->
  get_target target (animate this) = get_target target this.
Proof.
  intros Hr Hrun. unfold animate. rewrite Hr, Hrun.
  set (stepped := stepDroplets _).
  assert (Hc : get_target target (recordFrame stepped) = get_target target this).
  { unfold recordFrame.
    destruct (MAX_HISTORY stepped <? _)%nat; destruct target; reflexivity. }
  rewrite (proj1 (recordFrame_flags stepped)).
  change (isReplaying stepped) with (isReplaying this). rewrite Hr.
  simpl negb. cbv iota.
  destruct (replayPool (recordFrame stepped)); [| exact Hc].
  rewrite <- Hc. destruct target; reflexivity.
Qed.

Lemma iter_animate_time (n : nat) (this : t) :
  isReplaying this = false -> isRunning this = true ->
  isReplaying (Nat.iter n animate this) = false
  /\ isRunning (Nat.iter n animate this) = true
  /\ freq (Nat.iter n animate this) = freq this
  /\ time (Nat.iter n animate this) = time this + INR n * (dt * (freq this / 30)).
Proof.
  intros Hr Hrun. induction n as [| n IH].
  - cbn. repeat split; try assumption. lra.
  - destruct IH as (Hr' & Hrun' & Hf' & Ht').
    rewrite Nat.iter_succ.
    destruct (animate_live (Nat.iter n animate this) Hr' Hrun') as (Hr2 & Hrun2 & _).
    destruct (animate_live_fields (Nat.iter n animate this) Hr' Hrun')
      as (_ & Ht2 & _).
    pose proof (animate_live_config (Nat.iter n animate this) Tfreq Hr' Hrun') as Hf2.
    cbn [get_target] in Hf2.
    repeat split; try assumption; [congruence |].
    rewrite Ht2, Hf', Ht', S_INR. lra.
Qed.

End Running.

(** X21.  [updateWaterSurface] moves the vertices of the water plane
    vertically only: their number and their [x] and [z] stay, every height
    is within [|amp|] of zero, and nothing else of the simulator changes. *)
Theorem updateWaterSurface_moves_heights_only :
  forall (time : R) (this : SimulatorAdvanced.t),
    let this' := SimulatorAdvanced.updateWaterSurface time this in
    map Vector3.x (SimulatorAdvanced.waterMesh this')
      = map Vector3.x (SimulatorAdvanced.waterMesh this)
    /\ map Vector3.z (SimulatorAdvanced.waterMesh this')
       = map Vector3.z (SimulatorAdvanced.waterMesh this)
    /\ Forall (fun p => Rabs (Vector3.y p) <= Rabs (SimulatorAdvanced.amp this))
              (SimulatorAdvanced.waterMesh this')
    /\ this' = SimulatorAdvanced.set_waterMesh (SimulatorAdvanced.waterMesh this') this.
Proof.
  intros time this this'. subst this'.
  unfold SimulatorAdvanced.updateWaterSurface.
  cbn [SimulatorAdvanced.waterMesh SimulatorAdvanced.set_waterMesh].
  split; [| split; [| split; [| reflexivity]]].
  - rewrite map_map. apply map_ext. intros p. reflexivity.
  - rewrite map_map. apply map_ext. intros p. reflexivity.
  - apply Forall_forall. intros p Hin.
    apply in_map_iff in Hin. destruct Hin as (p0 & <- & _).
    cbn [Vector3.set_y Vector3.y]. apply getWaveHeight_bound.
Qed.

(** X22.  A run of live ticks: after [n] animation frames of a running
    simulator outside Replay, whose buffer holds at most [MAX_HISTORY + 1]
    frames, the simulator is still running, and the history holds [n] frames
    more, up to [MAX_HISTORY + 1] frames where it stays. *)
Theorem live_ticks_history_length :
  forall (n : nat) (this : SimulatorAdvanced.t),
    SimulatorAdvanced.isReplaying this = false ->
    SimulatorAdvanced.isRunning this = true ->
    (length (SimulatorAdvanced.history this)
     <= SimulatorAdvanced.MAX_HISTORY this + 1)%nat ->
    let this' := Nat.iter n SimulatorAdvanced.animate this in
    SimulatorAdvanced.isReplaying this' = false
    /\ SimulatorAdvanced.isRunning this' = true
    /\ length (SimulatorAdvanced.history this')
       = Nat.min (length (SimulatorAdvanced.history this) + n)
                 (SimulatorAdvanced.MAX_HISTORY this + 1).
Proof.
  intros n this Hr Hrun Hb this'. subst this'.
  destruct (iter_animate_live n this Hr Hrun Hb) as (Hr' & Hrun' & _ & Hl).
  repeat split; assumption.
Qed.

Lemma live_ticks_history_length_witness :
  length (SimulatorAdvanced.history (Nat.iter 5 SimulatorAdvanced.animate sim2)) = 7%nat.
Proof.
  assert (Hr : SimulatorAdvanced.isReplaying sim2 = false) by reflexivity.
  assert (Hrun : SimulatorAdvanced.isRunning sim2 = true) by reflexivity.
  assert (Hb : (length (SimulatorAdvanced.history sim2)
                <= SimulatorAdvanced.MAX_HISTORY sim2 + 1)%nat)
    by (change (2 <= 1200 + 1)%nat; lia).
  destruct (live_ticks_history_length 5 sim2 Hr Hrun Hb) as (_ & _ & Hl).
  rewrite Hl. change (Nat.min (2 + 5) (1200 + 1) = 7%nat). apply Nat.min_l. lia.
Defined.

(** X23.  Simulation time is linear in the number of live ticks: with the
    frequency left alone, [n] animation frames of a running simulator
    outside Replay advance the time by [n * dt * freq / 30]. *)
Theorem live_ticks_time :
  forall (n : nat) (this : SimulatorAdvanced.t),
    SimulatorAdvanced.isReplaying this = false ->
    SimulatorAdvanced.isRunning this = true ->
    SimulatorAdvanced.time (Nat.iter n SimulatorAdvanced.animate this)
    = SimulatorAdvanced.time this
      + INR n * (SimulatorAdvanced.dt * (SimulatorAdvanced.freq this / 30)).
Proof.
  intros n this Hr Hrun.
  exact (proj2 (proj2 (proj2 (iter_animate_time n this Hr Hrun)))).
Qed.

Lemma live_ticks_time_witness :
  SimulatorAdvanced.time (Nat.iter 3 SimulatorAdvanced.animate sim2)
  = SimulatorAdvanced.time sim2
    + INR 3 * (SimulatorAdvanced.dt * (SimulatorAdvanced.freq sim2 / 30)).
Proof.
  apply (live_ticks_time 3 sim2); reflexivity.
Defined.

(** X24.  On a still surface (amplitude 0) the surface is flat at height 0
    and does not move, so a droplet that the integration step brings down
    onto it either bounces, when slower than 25, leaving with 0.8 of its
    speed and resting at its radius above 0, or, at speed 25 or more, is
    dead after the tick. *)
Theorem still_surface_bounce_or_splash :
  forall (this : SimulatorAdvanced.t) (d : Droplet3D.t),
    SimulatorAdvanced.amp this = 0 ->
    let d1 := Droplet3D.integrate SimulatorAdvanced.dt
                (SimulatorAdvanced.gravity this) (SimulatorAdvanced.airResistance this)
                (Droplet3D.set_mesh d (set_visible true (Droplet3D.mesh d))) in
    let vy := Vector3.y (Droplet3D.velocity d1) in
    let d' := SimulatorAdvanced.stepDroplet this d in
    Vector3.y (Droplet3D.position d1) - Droplet3D.radius d1 <= 0 ->
    vy < 0 ->
    (-25 < vy ->
     Vector3.y (Droplet3D.velocity d') = 0.8 * - vy
     /\ Vector3.y (Droplet3D.position d') = Droplet3D.radius d)
    /\ (vy <= -25 -> Droplet3D.isDead d' = true).
Proof.
  intros this d Ha d1 vy d' Hy Hv. subst d'.
  unfold SimulatorAdvanced.stepDroplet, Droplet3D.update.
  unfold SimulatorAdvanced.getWaveHeight, SimulatorAdvanced.getSurfaceVelY.
  rewrite Ha. fold d1.
  replace (0 * cos _ * cos _ * cos _) with 0 by ring.
  replace (- 0 * _ * cos _ * cos _ * sin _) with 0 by ring.
  assert (Hrad : Droplet3D.radius d1 = Droplet3D.radius d) by reflexivity.
  assert (Hvy : Vector3.y (Droplet3D.velocity d1) = vy) by reflexivity.
  clearbody vy. clearbody d1.
  assert (Hrel : Droplet3D.relativeVelY d1 0 < 0)
    by (unfold Droplet3D.relativeVelY; rewrite Hvy; lra).
  split.
  - intros Hslow.
    assert (Hb : Droplet3D.takes_bounce 0 0 d1).
    { repeat split; try assumption; try lra.
      unfold Droplet3D.impactSpeed, Droplet3D.relativeVelY. rewrite Hvy.
      rewrite Rabs_left by lra. lra. }
    rewrite (collide_bounce 0 0 (SimulatorAdvanced.time this) d1 Hb).
    match goal with |- context [Droplet3D.finish ?x] =>
      destruct (finish_frame x) as (Hp & Hvel & _) end.
    rewrite Hp, Hvel. cbn. rewrite Hvy, Hrad.
    rewrite Rabs_left by lra. rewrite Rmax_left by lra. split; lra.
  - intros Hfast. apply finish_isDead. left. apply collide_isDead. right.
    repeat split; try assumption. left.
    unfold Droplet3D.impactSpeed, Droplet3D.relativeVelY. rewrite Hvy.
    rewrite Rabs_left by lra. lra.
Qed.

Lemma still_surface_bounce_or_splash_witness :
  Vector3.y (Droplet3D.position
               (SimulatorAdvanced.stepDroplet
                  (SimulatorAdvanced.bindSlider Tamp 0 sim0) (droplet_at 0.5 0))) = 0.8.
Proof.
  assert (Hslow : ~ Vector3.lengthSq
                      (Droplet3D.velocity
                         (Droplet3D.set_mesh (droplet_at 0.5 0)
                            (set_visible true (Droplet3D.mesh (droplet_at 0.5 0)))))
                    > 0.0001)
    by (unfold Vector3.lengthSq; cbn; lra).
  assert (Ha : SimulatorAdvanced.amp (SimulatorAdvanced.bindSlider Tamp 0 sim0) = 0)
    by reflexivity.
  pose proof (still_surface_bounce_or_splash
                (SimulatorAdvanced.bindSlider Tamp 0 sim0) (droplet_at 0.5 0) Ha) as H.
  cbv zeta in H.
  rewrite (integrate_no_drag _ _ _ _ Hslow) in H.
  destruct H as (Hb & _);
    [cbn; unfold SimulatorAdvanced.dt; lra | cbn; unfold SimulatorAdvanced.dt; lra |].
  destruct Hb as (_ & Hp); [cbn; unfold SimulatorAdvanced.dt; lra |].
  exact Hp.
Defined.

(** X25.  A stay in Replay in full, the rain timer included.  From
    entering Replay in Live mode to leaving it, through any scrubs,
    animation frames and firings of the rain timer: the history and the
    time are those at entry, and the live droplets are those at entry, in
    order, with their positions, velocities and alive flags, followed by
    one new droplet for each firing of the timer when rain mode is on.  With
    rain mode off, or without a firing, the droplets are exactly those at
    entry. *)
Theorem replay_keeps_time_history_and_old_droplets :
  forall (actions : list SimulatorAdvanced.ReplayAction) (this : SimulatorAdvanced.t),
    SimulatorAdvanced.isReplaying this = false ->
    let during := SimulatorAdvanced.duringReplay actions this in
    let after := SimulatorAdvanced.replaySession actions this in
    let n := if SimulatorAdvanced.rainMode this
             then SimulatorAdvanced.timer_firings actions else 0%nat in
    (SimulatorAdvanced.isReplaying during = true
     /\ SimulatorAdvanced.history during = SimulatorAdvanced.history this
     /\ SimulatorAdvanced.time during = SimulatorAdvanced.time this
     /\ exists spawned : list Droplet3D.t,
          length spawned = n
          /\ map Droplet3D.physical (SimulatorAdvanced.droplets during)
             = map Droplet3D.physical (SimulatorAdvanced.droplets this)
               ++ map Droplet3D.physical spawned)
    /\ (SimulatorAdvanced.isReplaying after = false
        /\ SimulatorAdvanced.history after = SimulatorAdvanced.history this
        /\ SimulatorAdvanced.time after = SimulatorAdvanced.time this
        /\ exists spawned : list Droplet3D.t,
             length spawned = n
             /\ map Droplet3D.physical (SimulatorAdvanced.droplets after)
                = map Droplet3D.physical (SimulatorAdvanced.droplets this)
                  ++ map Droplet3D.physical spawned)
    /\ (n = 0%nat ->
        map Droplet3D.physical (SimulatorAdvanced.droplets during)
        = map Droplet3D.physical (SimulatorAdvanced.droplets this)
        /\ map Droplet3D.physical (SimulatorAdvanced.droplets after)
           = map Droplet3D.physical (SimulatorAdvanced.droplets this)).
Proof.
  intros actions this Hlive during after n.
  destruct (replaySession_spec actions this Hlive)
    as ((Hr & _ & Hh & Ht & sp1 & Hn1 & Hd1) & Hr2 & Hh2 & Ht2 & sp2 & Hn2 & Hd2).
  fold n in Hn1, Hn2. fold during in Hr, Hh, Ht, Hd1. fold after in Hr2, Hh2, Ht2, Hd2.
  split; [| split].
  - repeat split; try assumption. exists sp1. split; assumption.
  - repeat split; try assumption. exists sp2. split; assumption.
  - intros H0. rewrite H0 in Hn1, Hn2.
    apply length_zero_iff_nil in Hn1. apply length_zero_iff_nil in Hn2.
    subst sp1 sp2. cbn in Hd1, Hd2. rewrite app_nil_r in Hd1, Hd2.
    split; assumption.
Qed.

Lemma replay_keeps_time_history_and_old_droplets_witness :
  let after :=
    SimulatorAdvanced.replaySession
      [SimulatorAdvanced.AnimationFrame; SimulatorAdvanced.Scrub (JInt 0);
       SimulatorAdvanced.RainTimer 0.25 0.75; SimulatorAdvanced.Scrub (JInt 7);
       SimulatorAdvanced.AnimationFrame] sim2 in
  SimulatorAdvanced.history after = SimulatorAdvanced.history sim2
  /\ SimulatorAdvanced.time after = SimulatorAdvanced.time sim2
  /\ map Droplet3D.physical (SimulatorAdvanced.droplets after)
     = map Droplet3D.physical (SimulatorAdvanced.droplets sim2).
Proof.
  assert (Hlive : SimulatorAdvanced.isReplaying sim2 = false) by reflexivity.
  destruct (replay_keeps_time_history_and_old_droplets
              [SimulatorAdvanced.AnimationFrame; SimulatorAdvanced.Scrub (JInt 0);
               SimulatorAdvanced.RainTimer 0.25 0.75; SimulatorAdvanced.Scrub (JInt 7);
               SimulatorAdvanced.AnimationFrame] sim2 Hlive)
    as (_ & (_ & Hh & Ht & _) & Hsame).
  intros after. split; [exact Hh |]. split; [exact Ht |].
  apply Hsame. reflexivity.
Defined.
